(** * Agent runtime of the AI product-manager agent: a shallow embedding

    The Python modules embedded here are the design-level implementation in
    [docs/architecture/geisinger-module-design.md] (AgentOrchestrator,
    Executor, SelfVerifier, ContextBudgetManager, CompactionService,
    ToolRegistry, ToolDiscoveryEngine, ToolExecutor, ToolVerifier, MCPClient,
    GeisingerMCPServer, EHRMCPServer) and
    [docs/architecture/refined-hitl-interaction-architecture.md]
    (TierClassificationEngine, ApprovalPolicyManager, ApprovalInteractionModule).

    Python exceptions are modelled by a small error monad [Py]; collaborators
    that the modules receive (tools, the security service, the LLM-backed
    helpers) are Section variables, so every theorem holds for all of them.
    Calls on the dataclasses the source declares ([Task], [AgentResponse],
    [ToolSpecification], [MCPRequest], [MCPResponse]) follow what Python does
    with them: the generated [__init__] and the attributes the class has. *)

From Stdlib Require Import String Ascii List ZArith QArith Bool Lia Sorted Permutation.
Import ListNotations.
Open Scope Z_scope.
Open Scope string_scope.
Open Scope list_scope.

(** ** Python exceptions and the error monad *)

Inductive Exn : Type :=
  | ToolExecutionError (msg : string)
  | ToolNotFoundError (msg : string)
  | UnauthorizedError (reason : string)
  | ConsentDeniedError
  | MCPError (msg : string)
  | CompactionError (msg : string)
  | ZeroDivisionError
  | OtherException (name msg : string).

Inductive Py (A : Type) : Type :=
  | Ok (a : A)
  | Raise (e : Exn).
Arguments Ok {A} a.
Arguments Raise {A} e.

Definition py_bind {A B : Type} (m : Py A) (k : A -> Py B) : Py B :=
  match m with
  | Ok a => k a
  | Raise e => Raise e
  end.

Notation "'let*' x := m 'in' k" := (py_bind m (fun x => k))
  (at level 200, x name, m at level 100, k at level 200).

(** ** TierClassificationEngine.classify_action *)

Module Tier.

Inductive Impact := LOW | MEDIUM | HIGH.
Inductive Reversibility := FULL | PARTIAL | NONE.

(** Data sensitivity levels, as the tool specification template declares
    them: [PUBLIC, INTERNAL, CONFIDENTIAL, RESTRICTED]. [Action] below ranges
    over these four only; [RawAction] admits any value the assessment may
    return, PHI among them. *)
Inductive DataSensitivity := PUBLIC | INTERNAL | CONFIDENTIAL | RESTRICTED.

(** The string the Python code holds for each level. *)
Definition sensitivity_name (s : DataSensitivity) : string :=
  match s with
  | PUBLIC => "PUBLIC"
  | INTERNAL => "INTERNAL"
  | CONFIDENTIAL => "CONFIDENTIAL"
  | RESTRICTED => "RESTRICTED"
  end.

Inductive HITLTier := TIER_1 | TIER_2 | TIER_3 | TIER_4.

Definition tier_num (t : HITLTier) : nat :=
  match t with TIER_1 => 1 | TIER_2 => 2 | TIER_3 => 3 | TIER_4 => 4 end.

Definition impact_eqb (a b : Impact) : bool :=
  match a, b with
  | LOW, LOW | MEDIUM, MEDIUM | HIGH, HIGH => true
  | _, _ => false
  end.

Definition rev_eqb (a b : Reversibility) : bool :=
  match a, b with
  | FULL, FULL | PARTIAL, PARTIAL | NONE, NONE => true
  | _, _ => false
  end.

(** The three derived attributes of an action
    ([assess_impact], [assess_reversibility], [assess_data_sensitivity]). *)
Record Action := mkAction {
  impact : Impact;
  reversibility : Reversibility;
  data_sensitivity : DataSensitivity
}.

(** [classify_action]: the if/elif chain of the source, with its literal
    comparison [data_sensitivity == "PHI"]. *)
Definition classify_action (a : Action) : HITLTier :=
  let i := impact a in
  let r := reversibility a in
  let s := sensitivity_name (data_sensitivity a) in
  if impact_eqb i LOW && rev_eqb r FULL then TIER_1
  else if impact_eqb i MEDIUM && (rev_eqb r FULL || rev_eqb r PARTIAL) then TIER_2
  else if impact_eqb i HIGH || String.eqb s "PHI" then TIER_3
  else TIER_4.

Definition impact_name (i : Impact) : string :=
  match i with LOW => "LOW" | MEDIUM => "MEDIUM" | HIGH => "HIGH" end.

Definition rev_name (r : Reversibility) : string :=
  match r with FULL => "FULL" | PARTIAL => "PARTIAL" | NONE => "NONE" end.

(** The values [assess_impact], [assess_reversibility] and
    [assess_data_sensitivity] return, as the strings [classify_action]
    compares; none of the three is restricted to a fixed set. *)
Record RawAction := mkRawAction {
  raw_impact : string;
  raw_reversibility : string;
  raw_sensitivity : string
}.

(** [classify_action] over the assessed strings, with its membership test
    [reversibility in ["FULL", "PARTIAL"]]. *)
Definition classify_raw (a : RawAction) : HITLTier :=
  let impact := raw_impact a in
  let reversibility := raw_reversibility a in
  let data_sensitivity := raw_sensitivity a in
  if String.eqb impact "LOW" && String.eqb reversibility "FULL" then TIER_1
  else if String.eqb impact "MEDIUM" && existsb (String.eqb reversibility) ["FULL"; "PARTIAL"] then TIER_2
  else if String.eqb impact "HIGH" || String.eqb data_sensitivity "PHI" then TIER_3
  else TIER_4.

(** The decision table of the spec, read literally: four rows, first match
    wins; [None] when no row matches. *)
Definition spec_table (a : Action) : option HITLTier :=
  match impact a, reversibility a, data_sensitivity a with
  | LOW, FULL, _ => Some TIER_1
  | MEDIUM, (FULL | PARTIAL), (PUBLIC | INTERNAL | CONFIDENTIAL) => Some TIER_2
  | HIGH, _, _ => Some TIER_3
  | _, NONE, RESTRICTED => Some TIER_4
  | _, _, _ => None
  end.

End Tier.

(** ** Agent runtime (module M1): Executor, SelfVerifier, AgentOrchestrator *)

Module Agent.

Record Task := mkTask {
  task_id : string;
  description : string;
  requirements_of_task : list string
}.

Record PlanStep := mkPlanStep {
  tool_id : string;
  parameters : list (string * string);
  critical : bool;
  parallel_safe : bool
}.

Record Plan := mkPlan {
  steps : list PlanStep;
  requirements : list string;
  (** [plan.has_more_steps], read by the verifier *)
  has_more_steps : bool;
  iteration : nat
}.

Record ToolResult := mkToolResult {
  tr_status : string;
  tr_data : string;
  tr_duration : Z
}.

(** [StepResult]; on the success path the source does not pass [failure],
    which keeps its default [False]. *)
Record StepResult := mkStepResult {
  sr_step : PlanStep;
  sr_status : string;
  sr_output : option ToolResult;
  sr_error : option string;
  failure : bool;
  duration : option Z
}.

Record ExecutionResult := mkExecutionResult {
  er_steps : list StepResult;
  er_status : string;
  failure_reason : option string;
  output : option string
}.

(** [ExecutionContext]: the shared object the executor mutates through
    [context.add_step_result]; its mutation is threaded explicitly. *)
Record ExecutionContext := mkExecutionContext {
  ctx_task : Task;
  meta_blueprint : string;
  domain_blueprints : list string;
  step_results : list StepResult;
  history : list string;
  domain_standards : list string;
  trace : list string
}.

Definition add_step_result (ctx : ExecutionContext) (sr : StepResult) : ExecutionContext :=
  {| ctx_task := ctx_task ctx;
     meta_blueprint := meta_blueprint ctx;
     domain_blueprints := domain_blueprints ctx;
     step_results := step_results ctx ++ [sr];
     history := history ctx;
     domain_standards := domain_standards ctx;
     trace := trace ctx |}.

Module Check.
(** The result of one self-verification check: [{passed, critical, message}]
    and, for the confidence check, its [score]. *)
Record t := mk {
  passed : bool;
  critical : bool;
  message : string;
  score : Z
}.

(** Modelled from the spec: the [check.failed] attribute read by
    [SelfVerifier.verify], whose class is not in the source; the spec calls a
    check failed when [check.passed == false]. *)
Definition failed (c : t) : bool := negb (passed c).
End Check.

Record VerificationResult := mkVerificationResult {
  v_passed : bool;
  checks : list Check.t;
  complete : bool;
  should_escalate : bool;
  confidence_score : Z;
  issues : list string
}.

(** The [AgentResponse] dataclass: eight fields, none with a default.
    [ResponseStatus] is kept as its member name, [ExecutionTrace] as the list
    of trace lines and a [Recommendation] as its text. *)
Record AgentResponse := mkAgentResponse {
  resp_task_id : string;
  resp_status : string;
  resp_result : option ExecutionResult;
  resp_verification : VerificationResult;
  resp_trace : list string;
  resp_recommendations : list string;
  resp_requires_approval : bool;
  resp_hitl_tier : Tier.HITLTier
}.

(** A keyword argument of a call [AgentResponse(name=value, ...)]; [kw_other]
    is a keyword that is not one of the dataclass's fields. *)
Inductive ResponseArg :=
  | kw_task_id (v : string)
  | kw_status (v : string)
  | kw_result (v : ExecutionResult)
  | kw_verification (v : VerificationResult)
  | kw_trace (v : list string)
  | kw_recommendations (v : list string)
  | kw_requires_approval (v : bool)
  | kw_hitl_tier (v : Tier.HITLTier)
  | kw_other (name : string) (v : string).

Definition kw_name (a : ResponseArg) : string :=
  match a with
  | kw_task_id _ => "task_id"
  | kw_status _ => "status"
  | kw_result _ => "result"
  | kw_verification _ => "verification"
  | kw_trace _ => "trace"
  | kw_recommendations _ => "recommendations"
  | kw_requires_approval _ => "requires_approval"
  | kw_hitl_tier _ => "hitl_tier"
  | kw_other name _ => name
  end.

(** The parameters of the generated [__init__], in field order. *)
Definition AgentResponse_fields : list string :=
  ["task_id"; "status"; "result"; "verification"; "trace";
   "recommendations"; "requires_approval"; "hitl_tier"].

Fixpoint first_arg {A : Type} (f : ResponseArg -> option A) (kwargs : list ResponseArg) : option A :=
  match kwargs with
  | [] => None
  | a :: rest => match f a with Some v => Some v | None => first_arg f rest end
  end.

Definition quote (s : string) : string := "'" ++ s ++ "'".

Fixpoint quote_series (names : list string) : string :=
  match names with
  | [] => EmptyString
  | [n] => "and " ++ quote n
  | n :: rest => quote n ++ ", " ++ quote_series rest
  end.

(** CPython's listing of missing arguments: ['a'], ['a' and 'b'],
    ['a', 'b', and 'c']. *)
Definition format_missing (names : list string) : string :=
  match names with
  | [n] => quote n
  | [n1; n2] => quote n1 ++ " and " ++ quote n2
  | _ => quote_series names
  end.

(** A count below ten as its decimal digit. *)
Definition digit (n : nat) : string := String (ascii_of_nat (48 + n)) EmptyString.

Definition type_error (msg : string) : Exn := OtherException "TypeError" msg.

(** The dataclass's generated [__init__] called with keyword arguments: an
    unexpected keyword raises [TypeError] first; otherwise every field not
    passed is a missing required argument, reported in field order. *)
Definition new_AgentResponse (kwargs : list ResponseArg) : Py AgentResponse :=
  match find (fun a => negb (existsb (String.eqb (kw_name a)) AgentResponse_fields)) kwargs with
  | Some a =>
      Raise (type_error ("AgentResponse.__init__() got an unexpected keyword argument "
                           ++ quote (kw_name a)))
  | None =>
      let missing := filter (fun n => negb (existsb (String.eqb n) (map kw_name kwargs)))
                       AgentResponse_fields in
      match first_arg (fun a => match a with kw_task_id v => Some v | _ => None end) kwargs,
            first_arg (fun a => match a with kw_status v => Some v | _ => None end) kwargs,
            first_arg (fun a => match a with kw_result v => Some v | _ => None end) kwargs,
            first_arg (fun a => match a with kw_verification v => Some v | _ => None end) kwargs,
            first_arg (fun a => match a with kw_trace v => Some v | _ => None end) kwargs,
            first_arg (fun a => match a with kw_recommendations v => Some v | _ => None end) kwargs,
            first_arg (fun a => match a with kw_requires_approval v => Some v | _ => None end) kwargs,
            first_arg (fun a => match a with kw_hitl_tier v => Some v | _ => None end) kwargs with
      | Some i, Some st, Some r, Some v, Some t, Some rs, Some ra, Some h =>
          Ok {| resp_task_id := i; resp_status := st; resp_result := Some r;
                resp_verification := v; resp_trace := t; resp_recommendations := rs;
                resp_requires_approval := ra; resp_hitl_tier := h |}
      | _, _, _, _, _, _, _, _ =>
          Raise (type_error ("AgentResponse.__init__() missing " ++ digit (length missing)
                   ++ " required positional argument"
                   ++ (if Nat.eqb (length missing) 1 then EmptyString else "s")
                   ++ ": " ++ format_missing missing))
      end
  end.

Section Runtime.

(** Tool framework used by the executor. *)
Variable Tool : Type.
Variable get_tool : string -> Py Tool.
Variable tool_execute : Tool -> list (string * string) -> ExecutionContext -> Py ToolResult.
(** [Executor._execute_parallel], whose body is not in the source. *)
Variable execute_parallel : PlanStep -> ExecutionContext -> Py StepResult.
Variable aggregate_outputs : list StepResult -> string.

(** [Executor._execute_sequential] *)
Definition execute_sequential (step : PlanStep) (ctx : ExecutionContext) : Py StepResult :=
  let* tool := get_tool (tool_id step) in
  match tool_execute tool (parameters step) ctx with
  | Ok tool_result =>
      Ok {| sr_step := step; sr_status := "SUCCESS"; sr_output := Some tool_result;
            sr_error := None; failure := false; duration := Some (tr_duration tool_result) |}
  | Raise (ToolExecutionError e) =>
      Ok {| sr_step := step; sr_status := "FAILED"; sr_output := None;
            sr_error := Some e; failure := true; duration := None |}
  | Raise e => Raise e
  end.

Definition execute_step (step : PlanStep) (ctx : ExecutionContext) : Py StepResult :=
  if parallel_safe step then execute_parallel step ctx else execute_sequential step ctx.

(** The [for step in plan.steps] loop of [Executor.execute_plan], with the
    results so far in [results] and the context as mutated so far. *)
Fixpoint execute_steps (todo : list PlanStep) (results : list StepResult)
    (ctx : ExecutionContext) : Py (ExecutionResult * ExecutionContext) :=
  match todo with
  | [] =>
      Ok ({| er_steps := results; er_status := "SUCCESS"; failure_reason := None;
             output := Some (aggregate_outputs results) |}, ctx)
  | step :: rest =>
      let* step_result := execute_step step ctx in
      let results' := results ++ [step_result] in
      let ctx' := add_step_result ctx step_result in
      if failure step_result && critical step then
        Ok ({| er_steps := results'; er_status := "FAILED";
               failure_reason := sr_error step_result; output := None |}, ctx')
      else execute_steps rest results' ctx'
  end.

(** [Executor.execute_plan] *)
Definition execute_plan (plan : Plan) (ctx : ExecutionContext) : Py (ExecutionResult * ExecutionContext) :=
  execute_steps (steps plan) [] ctx.

(** The steps [todo] run from [ctx], none of them a critical failure, with
    results [results_end] and context [ctx_end]. *)
Inductive steps_continue : list PlanStep -> list StepResult -> ExecutionContext ->
    list StepResult -> ExecutionContext -> Prop :=
  | sc_nil results ctx : steps_continue [] results ctx results ctx
  | sc_cons step rest results ctx sr results_end ctx_end :
      execute_step step ctx = Ok sr ->
      failure sr && critical step = false ->
      steps_continue rest (results ++ [sr]) (add_step_result ctx sr) results_end ctx_end ->
      steps_continue (step :: rest) results ctx results_end ctx_end.

(** The six checks of the self-verifier, in their order. *)
Variable check_policy_compliance : ExecutionResult -> string -> list string -> Check.t.
Variable check_completeness : ExecutionResult -> list string -> Check.t.
Variable check_consistency : ExecutionResult -> list string -> Check.t.
Variable check_quality : ExecutionResult -> list string -> Check.t.
Variable assess_confidence : ExecutionResult -> ExecutionContext -> Check.t.
Variable check_safety : ExecutionResult -> ExecutionContext -> Check.t.
Variable extract_issues : list Check.t -> list string.

(** [SelfVerifier.verify] *)
Definition verify (result : ExecutionResult) (plan : Plan) (ctx : ExecutionContext) : VerificationResult :=
  let policy_check := check_policy_compliance result (meta_blueprint ctx) (domain_blueprints ctx) in
  let completeness_check := check_completeness result (requirements plan) in
  let consistency_check := check_consistency result (history ctx) in
  let quality_check := check_quality result (domain_standards ctx) in
  let confidence_check := assess_confidence result ctx in
  let safety_check := check_safety result ctx in
  let checks := [policy_check; completeness_check; consistency_check;
                 quality_check; confidence_check; safety_check] in
  let all_passed := forallb Check.passed checks in
  let critical_failed := existsb (fun c => Check.failed c && Check.critical c) checks in
  {| v_passed := all_passed;
     checks := checks;
     complete := all_passed && negb (has_more_steps plan);
     should_escalate := critical_failed;
     confidence_score := Check.score confidence_check;
     issues := extract_issues checks |}.

(** Collaborators of the orchestrator. *)
Variable Gathered : Type.
Variable load_meta_blueprint : Py string.
Variable classify_domain : Task -> Py string.
Variable load_domain_blueprints : string -> Py (list string).
Variable gather_context : ExecutionContext -> Py Gathered.
Variable create_plan : Task -> Gathered -> nat -> Py Plan.
Variable update_from_verification : VerificationResult -> ExecutionContext -> ExecutionContext.
Variable escalation_reason : VerificationResult -> string.

Definition max_iterations : nat := 10.

Definition initial_context (task : Task) (mb : string) (dbs : list string) : ExecutionContext :=
  {| ctx_task := task; meta_blueprint := mb; domain_blueprints := dbs;
     step_results := []; history := []; domain_standards := []; trace := [] |}.

(** [AgentResponse(status="MAX_ITERATIONS", trace=context.trace)] *)
Definition max_iterations_response (ctx : ExecutionContext) : Py AgentResponse :=
  new_AgentResponse [kw_status "MAX_ITERATIONS"; kw_trace (trace ctx)].

(** The [for iteration in range(max_iterations)] loop; [fuel] counts the
    iterations left. *)
Fixpoint agent_loop (fuel it : nat) (task : Task) (ctx : ExecutionContext) : Py AgentResponse :=
  match fuel with
  | O => max_iterations_response ctx
  | S fuel' =>
      let* gathered_context := gather_context ctx in
      let* plan := create_plan task gathered_context it in
      let* r := execute_plan plan ctx in
      let execution_result := fst r in
      let ctx1 := snd r in
      let verification := verify execution_result plan ctx1 in
      if complete verification then
        new_AgentResponse [kw_result execution_result; kw_verification verification;
                           kw_trace (trace ctx1)]
      else if should_escalate verification then
        new_AgentResponse [kw_status "ESCALATED"; kw_other "reason" (escalation_reason verification);
                           kw_trace (trace ctx1)]
      else agent_loop fuel' (S it) task (update_from_verification verification ctx1)
  end.

(** [AgentOrchestrator.execute_task] *)
Definition execute_task (task : Task) : Py AgentResponse :=
  let* mb := load_meta_blueprint in
  let* domain := classify_domain task in
  let* dbs := load_domain_blueprints domain in
  agent_loop max_iterations 0 task (initial_context task mb dbs).

(** A run of [n] loop iterations from [ctx], each of which reaches its
    verification and ends neither complete nor escalating, in context [ctx_end]. *)
Inductive inconclusive_run (task : Task) : nat -> nat -> ExecutionContext -> ExecutionContext -> Prop :=
  | ir_done it ctx : inconclusive_run task 0 it ctx ctx
  | ir_step n it ctx g plan er ctx1 ctx_end :
      gather_context ctx = Ok g ->
      create_plan task g it = Ok plan ->
      execute_plan plan ctx = Ok (er, ctx1) ->
      complete (verify er plan ctx1) = false ->
      should_escalate (verify er plan ctx1) = false ->
      inconclusive_run task n (S it) (update_from_verification (verify er plan ctx1) ctx1) ctx_end ->
      inconclusive_run task (S n) it ctx ctx_end.

End Runtime.

Arguments execute_sequential {Tool}.
Arguments execute_step {Tool}.
Arguments execute_steps {Tool}.
Arguments execute_plan {Tool}.
Arguments steps_continue {Tool}.
Arguments agent_loop {Tool} _ _ _ _ _ _ _ _ _ _ _ {Gathered}.
Arguments execute_task {Tool} _ _ _ _ _ _ _ _ _ _ _ {Gathered}.
Arguments inconclusive_run {Tool} _ _ _ _ _ _ _ _ _ _ _ {Gathered}.

End Agent.

(** ** Context budget manager (module M2, [ContextBudgetManager]) *)

Module Budget.

Record BudgetCheckResult := mkBudgetCheckResult {
  status : string;
  action : string
}.

Record Manager := mkManager {
  total_budget : Z;
  allocations : list (string * Z);
  used : Z
}.

(** [__init__] *)
Definition init : Manager :=
  {| total_budget := 200000;
     allocations := [("meta_blueprint", 2000); ("working_memory", 50000);
                     ("tool_results", 30000); ("blueprints", 20000);
                     ("reasoning", 40000); ("output", 10000);
                     ("safety", 8000); ("dynamic", 40000)];
     used := 0 |}.

(** [dict.get(key, default)] on the allocation table. *)
Fixpoint dict_get (key : string) (d : list (string * Z)) (default : Z) : Z :=
  match d with
  | [] => default
  | (k, v) :: rest => if String.eqb k key then v else dict_get key rest default
  end.

(** [check_budget]: it reads the manager and does not change it. The float
    comparison [used + requested > total_budget * 0.8] is written exactly as
    [10 * (used + requested) > 8 * total_budget]. *)
Definition check_budget (m : Manager) (category : string) (requested : Z) : BudgetCheckResult :=
  let allocated := dict_get category (allocations m) 0 in
  let available := total_budget m - used m in
  if requested >? allocated then
    {| status := "OVER_ALLOCATION"; action := "TRIGGER_COMPACTION" |}
  else if 10 * (used m + requested) >? 8 * total_budget m then
    {| status := "WARNING"; action := "APPROACHING_LIMIT" |}
  else
    {| status := "APPROVED"; action := "PROCEED" |}.

(** [allocate] *)
Definition allocate (m : Manager) (category : string) (amount : Z) : Manager :=
  {| total_budget := total_budget m; allocations := allocations m; used := used m + amount |}.

(** [release] *)
Definition release (m : Manager) (category : string) (amount : Z) : Manager :=
  {| total_budget := total_budget m; allocations := allocations m;
     used := Z.max 0 (used m - amount) |}.

Inductive Op :=
  | CheckBudget (category : string) (requested : Z)
  | Allocate (category : string) (amount : Z)
  | Release (category : string) (amount : Z).

(** A sequence of calls on one manager: the final manager and the results of
    the [check_budget] calls, in order. *)
Fixpoint run (m : Manager) (ops : list Op) : Manager * list BudgetCheckResult :=
  match ops with
  | [] => (m, [])
  | CheckBudget c r :: rest =>
      let res := check_budget m c r in
      let '(m', rs) := run m rest in (m', res :: rs)
  | Allocate c a :: rest => run (allocate m c a) rest
  | Release c a :: rest => run (release m c a) rest
  end.

End Budget.

(** ** Compaction service (module M2, [CompactionService]) *)

Module Compaction.

Record WorkingMemory := mkWorkingMemory {
  max_tokens : Z;
  conversation_history : list string;
  task_state : list (string * string);
  tool_results : list (string * string);
  temporary_conclusions : list string
}.

Record CompactMemory := mkCompactMemory {
  critical_data : list string;
  conversation_summary : string;
  tool_summary : string;
  original_size : Z;
  compressed_size : Z
}.

(** [compression_ratio] is a Python float, here the exact quotient. *)
Record CompactionResult := mkCompactionResult {
  compact_memory : CompactMemory;
  compression_ratio : Q
}.

Record DataLossCheck := mkDataLossCheck {
  dl_passed : bool;
  missing_items : list string
}.

Section Service.

(** Helpers of the service whose bodies are not in the source. *)
Variable extract_critical_data : WorkingMemory -> list string.
Variable summarize_conversation : list string -> Z -> string.
Variable compress_tool_results : list (string * string) -> string.
Variable count_tokens : list string -> string -> string -> Z.
(** [WorkingMemory.count_tokens] *)
Variable wm_count_tokens : WorkingMemory -> Z.

(** Modelled from the spec: the designated critical subset of a working
    memory ("safety-relevant facts, open decisions, pending approvals"), which
    the source leaves to [_extract_critical_data]. *)
Variable critical_items : WorkingMemory -> list string.

Definition mem_string (x : string) (l : list string) : bool :=
  existsb (String.eqb x) l.

(** Modelled from the spec: [_verify_no_data_loss], absent from the source;
    it "verifies after compaction that no critical item was lost". *)
Definition verify_no_data_loss (wm : WorkingMemory) (cm : CompactMemory) : DataLossCheck :=
  let missing := filter (fun x => negb (mem_string x (critical_data cm))) (critical_items wm) in
  {| dl_passed := match missing with [] => true | _ => false end;
     missing_items := missing |}.

(** [compact_working_memory] *)
Definition compact_working_memory (wm : WorkingMemory) (target_tokens : Z) : Py CompactionResult :=
  let critical := extract_critical_data wm in
  let summary := summarize_conversation (conversation_history wm) 10 in
  let tsummary := compress_tool_results (tool_results wm) in
  let cm := {| critical_data := critical;
               conversation_summary := summary;
               tool_summary := tsummary;
               original_size := wm_count_tokens wm;
               compressed_size := count_tokens critical summary tsummary |} in
  let verification := verify_no_data_loss wm cm in
  if negb (dl_passed verification) then
    Raise (CompactionError ("Critical data lost: " ++ String.concat ", " (missing_items verification)))
  else if Z.eqb (compressed_size cm) 0 then Raise ZeroDivisionError
  else Ok {| compact_memory := cm;
             compression_ratio := Qdiv (inject_Z (original_size cm)) (inject_Z (compressed_size cm)) |}.

End Service.

End Compaction.

(** ** Tool executor (module M3, [ToolExecutor.execute]) *)

Module ToolExec.

Record ToolSpec := mkToolSpec {
  spec_id : string;
  mcp_endpoint : string;
  parameter_schema : list string;
  requires_consent : bool;
  sla_timeout : Z;
  cacheable : bool;
  cache_ttl : Z
}.

Record ToolResult := mkToolResult {
  status : string;
  data : option string;
  error : option string;
  tool_id : string
}.

Record AuthResult := mkAuthResult {
  authorized : bool;
  reason : string;
  credentials : string
}.

(** The observable effects of [execute] on its collaborators. *)
Inductive Event :=
  | CacheGet (key : string)
  | CacheSet (key : string)
  | McpCall (endpoint : string).

(** An entry of [result_cache]: the value and the time it expires. *)
Record CacheEntry := mkCacheEntry {
  value : ToolResult;
  expires_at : Z
}.

(** The executor's [result_cache], the log of effects so far, and the
    current time on the cache's clock. *)
Record State := mkState {
  result_cache : list (string * CacheEntry);
  events : list Event;
  now : Z
}.

(** State and exceptions: a raised exception keeps the state reached. *)
Definition M (A : Type) : Type := State -> Py A * State.

Definition ret {A} (a : A) : M A := fun s => (Ok a, s).
Definition raise {A} (e : Exn) : M A := fun s => (Raise e, s).
Definition bind {A B} (m : M A) (k : A -> M B) : M B :=
  fun s => match m s with
           | (Ok a, s') => k a s'
           | (Raise e, s') => (Raise e, s')
           end.
Definition lift {A} (p : Py A) : M A := fun s => (p, s).

Notation "x <- m ;; k" := (bind m (fun x => k)) (at level 61, m at next level, right associativity).

Fixpoint lookup (key : string) (c : list (string * CacheEntry)) : option CacheEntry :=
  match c with
  | [] => None
  | (k, v) :: rest => if String.eqb k key then Some v else lookup key rest
  end.

(** What [get] answers at time [t]: the value last set for [key], unless it
    has expired. *)
Definition cached_value (t : Z) (key : string) (c : list (string * CacheEntry)) : option ToolResult :=
  match lookup key c with
  | Some e => if Z.ltb t (expires_at e) then Some (value e) else None
  | None => None
  end.

(** [self.result_cache.get(key)]; the cache's class is not in the source,
    and [get] and [set] are given the usual time-to-live meaning. *)
Definition cache_get (key : string) : M (option ToolResult) :=
  fun s => (Ok (cached_value (now s) key (result_cache s)),
            {| result_cache := result_cache s; events := events s ++ [CacheGet key];
               now := now s |}).

(** [self.result_cache.set(key, value, ttl=ttl)]: the entry replaces any
    earlier one for [key] and expires [ttl] after the current time. *)
Definition cache_set (key : string) (v : ToolResult) (ttl : Z) : M unit :=
  fun s => (Ok tt, {| result_cache := (key, mkCacheEntry v (now s + ttl)) :: result_cache s;
                      events := events s ++ [CacheSet key]; now := now s |}).

(** [except MCPError as e: return ToolResult(status="FAILED", ...)] *)
Definition catch_mcp (spec : ToolSpec) (m : M ToolResult) : M ToolResult :=
  fun s => match m s with
           | (Raise (MCPError e), s') =>
               (Ok {| status := "FAILED"; data := None; error := Some e; tool_id := spec_id spec |}, s')
           | r => r
           end.

Section Executor.

Variable User : Type.
Variable Context : Type.
Variable context_user : Context -> User.
Variable check_authorization : User -> ToolSpec -> AuthResult.
(** [consent.granted] of [security.get_consent] *)
Variable get_consent : User -> ToolSpec -> list (string * string) -> bool.
Variable validate_parameters : list (string * string) -> list string -> Py (list (string * string)).
Variable generate_cache_key : ToolSpec -> list (string * string) -> string.
Variable mcp_call_tool : string -> list (string * string) -> Z -> string -> Py string.
Variable verify_result : string -> ToolSpec -> Py ToolResult.

(** [self.mcp.call_tool(...)]: the call is recorded, then its outcome. *)
Definition call_tool (endpoint : string) (params : list (string * string))
    (timeout : Z) (creds : string) : M string :=
  fun s => (mcp_call_tool endpoint params timeout creds,
            {| result_cache := result_cache s; events := events s ++ [McpCall endpoint];
               now := now s |}).

(** [ToolExecutor.execute] *)
Definition execute (spec : ToolSpec) (parameters : list (string * string))
    (context : Context) : M ToolResult :=
  (* 1. Authorization check *)
  let auth_result := check_authorization (context_user context) spec in
  if negb (authorized auth_result) then raise (UnauthorizedError (reason auth_result)) else
  (* 2. Consent check (if required) *)
  if requires_consent spec && negb (get_consent (context_user context) spec parameters)
  then raise ConsentDeniedError else
  (* 3. Parameter validation *)
  validated_params <- lift (validate_parameters parameters (parameter_schema spec)) ;;
  (* 4. Check cache *)
  let cache_key := generate_cache_key spec validated_params in
  cached <- cache_get cache_key ;;
  match cached with
  | Some c => ret c
  | None =>
      (* 5. Execute via MCP, 6. verify, 7. cache *)
      catch_mcp spec (
        mcp_result <- call_tool (mcp_endpoint spec) validated_params (sla_timeout spec)
                                (credentials auth_result) ;;
        verified_result <- lift (verify_result mcp_result spec) ;;
        _ <- (if cacheable spec then cache_set cache_key verified_result (cache_ttl spec)
              else ret tt) ;;
        ret verified_result)
  end.

End Executor.

End ToolExec.
(** ** Approval policy and approval conversation (HITL layers 9 and 5) *)

Module Approval.
Import Tier.

Definition tier_eqb (a b : HITLTier) : bool := Nat.eqb (tier_num a) (tier_num b).

(** [ApprovalPolicyManager.should_request_approval] *)
Definition should_request_approval (tier : HITLTier) : bool :=
  existsb (tier_eqb tier) [TIER_3; TIER_4].

Record ApprovalRequirements := mkApprovalRequirements {
  req_tier : HITLTier;
  req_timeout : Z;
  required_role : string;
  can_modify : bool;
  emergency_override : bool
}.

(** Python's [str] of an integer. *)
Fixpoint digits_of_nat (fuel n : nat) (acc : string) : string :=
  match fuel with
  | O => acc
  | S fuel' =>
      let d := String (Ascii.ascii_of_nat (48 + Nat.modulo n 10)) EmptyString in
      if Nat.ltb n 10 then (d ++ acc)%string else digits_of_nat fuel' (Nat.div n 10) (d ++ acc)%string
  end.

Definition str_of_Z (z : Z) : string :=
  let n := Z.to_nat (Z.abs z) in
  ((if Z.ltb z 0 then "-" else "") ++ digits_of_nat (S n) n "")%string.

Record VerificationCheck := mkVerificationCheck {
  vc_description : string;
  vc_passed : bool
}.

(** [ActionProposal]; [parameters] is held as its rendering. *)
Record ActionProposal := mkActionProposal {
  action_description : string;
  proposal_parameters : string;
  reasoning : string;
  confidence : Z;
  risk_level : string;
  verification_checks : list VerificationCheck
}.

Record Button := mkButton {
  label : string;
  button_action : string;
  style : string
}.

(** [ApprovalUI]; [None] in [buttons] is the Python [None] list element. *)
Record ApprovalUI := mkApprovalUI {
  title : string;
  summary : string;
  details : list (string * string);
  evidence : list string;
  buttons : list (option Button);
  ui_timeout : Z
}.

Record UserResponse := mkUserResponse {
  ur_action : string;
  ur_user : string;
  ur_reason : string;
  ur_modifications : string
}.

(** [ApprovalResponse]; the [timestamp] ([datetime.now()]) is not modelled. *)
Record ApprovalResponse := mkApprovalResponse {
  decision : string;
  reason : option string;
  modifications : option string;
  user : string
}.

(** How [request_approval] ends: with a response, by falling off the end of
    its if/elif chain (Python returns [None]), or still waiting for the user
    when the modelled answers run out. *)
Inductive ApprovalOutcome :=
  | Responded (r : ApprovalResponse)
  | ReturnedNone
  | AwaitingUser.

Inductive UIEvent :=
  | Presented (ui : ApprovalUI)
  | Explained.

Section Policy.

(** The type of the actions handed to the policy manager, whose class is
    not in the source; only [_get_required_approver] reads them. *)
Variable ActionT : Type.
Variable get_timeout : HITLTier -> Z.
Variable get_required_approver : ActionT -> string.
Variable generate_summary : ActionProposal -> string.

(** [ApprovalPolicyManager.get_approval_requirements] *)
Definition get_approval_requirements (action : ActionT) (tier : HITLTier) : ApprovalRequirements :=
  {| req_tier := tier;
     req_timeout := get_timeout tier;
     required_role := get_required_approver action;
     can_modify := tier_eqb tier TIER_3;
     emergency_override := negb (tier_eqb tier TIER_4) |}.

(** [ApprovalInteractionModule._build_approval_ui] *)
Definition build_approval_ui (proposal : ActionProposal) (requirements : ApprovalRequirements) : ApprovalUI :=
  {| title := "Action Approval Required";
     summary := generate_summary proposal;
     details := [("action", action_description proposal);
                 ("parameters", proposal_parameters proposal);
                 ("reasoning", reasoning proposal);
                 ("confidence", (str_of_Z (confidence proposal) ++ "%")%string);
                 ("risk", risk_level proposal)];
     evidence := map (fun check => ("✓ " ++ vc_description check)%string)
                     (filter vc_passed (verification_checks proposal));
     buttons := [Some (mkButton "Approve" "APPROVE" "success");
                 Some (mkButton "Deny" "DENY" "danger");
                 (if can_modify requirements then Some (mkButton "Modify" "MODIFY" "warning") else None);
                 Some (mkButton "Explain More" "EXPLAIN" "info")];
     ui_timeout := req_timeout requirements |}.

(** [ApprovalInteractionModule.request_approval]: [answers] are the user's
    successive answers to [_present_to_user]; the events record each
    presentation and each detailed explanation shown. *)
Fixpoint request_approval (proposal : ActionProposal) (requirements : ApprovalRequirements)
    (answers : list UserResponse) : ApprovalOutcome * list UIEvent :=
  let approval_ui := build_approval_ui proposal requirements in
  match answers with
  | [] => (AwaitingUser, [Presented approval_ui])
  | user_response :: rest =>
      if String.eqb (ur_action user_response) "APPROVE" then
        (Responded {| decision := "APPROVED"; reason := None; modifications := None;
                      user := ur_user user_response |}, [Presented approval_ui])
      else if String.eqb (ur_action user_response) "DENY" then
        (Responded {| decision := "DENIED"; reason := Some (ur_reason user_response);
                      modifications := None; user := ur_user user_response |},
         [Presented approval_ui])
      else if String.eqb (ur_action user_response) "MODIFY" then
        (Responded {| decision := "MODIFY"; reason := None;
                      modifications := Some (ur_modifications user_response);
                      user := ur_user user_response |}, [Presented approval_ui])
      else if String.eqb (ur_action user_response) "EXPLAIN" then
        let '(outcome, events) := request_approval proposal requirements rest in
        (outcome, Presented approval_ui :: Explained :: events)
      else (ReturnedNone, [Presented approval_ui])
  end.

End Policy.

Arguments get_approval_requirements {ActionT}.

End Approval.

(** ** Tool registry and discovery (module M3) *)

Module Registry.
Import ToolExec.

(** The registry's [backend] (a [RegistryBackend], modelled as a key-value
    store) and its in-process [cache]. *)
Record RegistryState := mkRegistryState {
  backend : list (string * ToolSpec);
  cache : list (string * ToolSpec)
}.

Fixpoint find (key : string) (d : list (string * ToolSpec)) : option ToolSpec :=
  match d with
  | [] => None
  | (k, v) :: rest => if String.eqb k key then Some v else find key rest
  end.

(** [d[key] = value] *)
Definition put (key : string) (v : ToolSpec) (d : list (string * ToolSpec)) : list (string * ToolSpec) :=
  (key, v) :: d.

Section Reg.

Variable validate_spec : ToolSpec -> Py unit.

(** [ToolRegistry.register_tool] *)
Definition register_tool (tool_spec : ToolSpec) (s : RegistryState) : Py unit * RegistryState :=
  match validate_spec tool_spec with
  | Raise e => (Raise e, s)
  | Ok _ =>
      match find (spec_id tool_spec) (backend s) with
      | Some _ =>
          (Raise (OtherException "ToolRegistryError"
                    ("Tool " ++ spec_id tool_spec ++ " already registered")), s)
      | None =>
          let s1 := {| backend := put (spec_id tool_spec) tool_spec (backend s); cache := cache s |} in
          (Ok tt, {| backend := backend s1; cache := put (spec_id tool_spec) tool_spec (cache s1) |})
      end
  end.

End Reg.

(** [ToolRegistry.get_tool] *)
Definition get_tool (tool_id : string) (s : RegistryState) : Py ToolSpec * RegistryState :=
  match find tool_id (cache s) with
  | Some spec => (Ok spec, s)
  | None =>
      match find tool_id (backend s) with
      | None => (Raise (ToolNotFoundError ("Tool " ++ tool_id ++ " not found")), s)
      | Some spec => (Ok spec, {| backend := backend s; cache := put tool_id spec (cache s) |})
      end
  end.

Record ToolRecommendation := mkToolRecommendation {
  rec_tool : ToolSpec;
  rec_confidence : Q;
  alternatives : list string;
  usage_stats : string
}.

Section Discovery.

Variable Task : Type.
Variable task_domain : Task -> string.
Variable task_type : Task -> string.
Variable RiskTier : Type.
(** [_extract_requirements(task).capabilities] *)
Variable extract_capabilities : Task -> list string.
(** [registry.search_tools(SearchCriteria(...))] *)
Variable search_tools : list string -> string -> RiskTier -> list ToolSpec.
(** [usage_tracker.get_success_rate(tool_id, task_type)] *)
Variable get_success_rate : string -> string -> Q.
Variable calculate_confidence : ToolSpec -> Task -> Q.
Variable find_alternatives : ToolSpec -> list string.
Variable get_stats : string -> string.

(** [sorted(tools, key=k, reverse=True)]: a stable sort on decreasing keys,
    as insertion of each tool, in input order, before the first tool of
    smaller key. *)
Fixpoint insert_desc (k : ToolSpec -> Q) (t : ToolSpec) (l : list ToolSpec) : list ToolSpec :=
  match l with
  | [] => [t]
  | u :: rest => if negb (Qle_bool (k t) (k u)) then t :: u :: rest else u :: insert_desc k t rest
  end.

Definition sort_desc (k : ToolSpec -> Q) (l : list ToolSpec) : list ToolSpec :=
  fold_left (fun acc t => insert_desc k t acc) l [].

(** [_rank_by_success_rate] *)
Definition rank_by_success_rate (tools : list ToolSpec) (ttype : string) : list ToolSpec :=
  sort_desc (fun t => get_success_rate (spec_id t) ttype) tools.

(** [discover_tools_for_task]; of the [context] it reads only
    [allowed_risk_tier], which is passed directly. *)
Definition discover_tools_for_task (task : Task) (allowed_risk_tier : RiskTier) : list ToolRecommendation :=
  let candidate_tools := search_tools (extract_capabilities task) (task_domain task) allowed_risk_tier in
  let ranked := rank_by_success_rate candidate_tools (task_type task) in
  map (fun tool => {| rec_tool := tool; rec_confidence := calculate_confidence tool task;
                      alternatives := find_alternatives tool; usage_stats := get_stats (spec_id tool) |})
      (firstn 5 ranked).

End Discovery.

End Registry.

(** ** Tool output verification (module M3) *)

Module ToolVerifier.
Import ToolExec.

Record ValidationCheck := mkValidationCheck {
  check_name : string;
  check_passed : bool
}.

Section Verifier.

Variable output_schema : ToolSpec -> string.
Variable required_fields : ToolSpec -> list string.
Variable validate_schema : string -> string -> ValidationCheck.
Variable check_completeness : string -> list string -> ValidationCheck.
Variable check_safety : string -> ToolSpec -> ValidationCheck.
(** Python's rendering of the list of failed checks in the message. *)
Variable repr_checks : list ValidationCheck -> string.

(** [ToolVerifier.verify_result] over [result.data]; the [verification]
    field of the returned [ToolResult] is not part of the record. *)
Definition verify_result (result_data : string) (tool_spec : ToolSpec) : Py ToolResult :=
  let checks := [validate_schema result_data (output_schema tool_spec);
                 check_completeness result_data (required_fields tool_spec);
                 check_safety result_data tool_spec] in
  let all_passed := forallb check_passed checks in
  if negb all_passed then
    let failed := filter (fun c => negb (check_passed c)) checks in
    Raise (OtherException "ToolVerificationError" ("Verification failed: " ++ repr_checks failed))
  else
    Ok {| status := "SUCCESS"; data := Some result_data; error := None; tool_id := spec_id tool_spec |}.

End Verifier.

End ToolVerifier.

(** ** MCP client, server base class and EHR server (module M4) *)

Module MCP.

Record MCPRequest := mkMCPRequest {
  version : string;
  tool_endpoint : string;
  parameters : list (string * string);
  credentials : string;
  trace_id : string;
  timeout : Z
}.

Record MCPResponse := mkMCPResponse {
  resp_status : string;
  resp_data : option string;
  resp_error : option string;
  resp_metadata : list (string * string)
}.

Record MCPResult := mkMCPResult {
  result_status : string;
  result_data : option string;
  result_metadata : list (string * string);
  result_error : option string
}.

Definition is_exn (name : string) (e : Exn) : bool :=
  match e with
  | OtherException n _ => String.eqb n name
  | _ => false
  end.

(** [str(e)] *)
Definition exn_message (e : Exn) : string :=
  match e with
  | ToolExecutionError m | ToolNotFoundError m | UnauthorizedError m
  | MCPError m | CompactionError m | OtherException _ m => m
  | ConsentDeniedError => ""
  | ZeroDivisionError => "division by zero"
  end.

Section Client.

Variable prepare_credentials : string -> string.
(** The trace id the client generates for this call. *)
Variable generated_trace_id : string.
(** [self.transport.send(request, timeout=...)] *)
Variable transport_send : MCPRequest -> Z -> Py MCPResponse.
(** [self._validate_response]: raises, or returns [None]. *)
Variable validate_response : MCPResponse -> Py unit.

(** [MCPClient.call_tool] *)
Definition call_tool (endpoint : string) (params : list (string * string)) (tmo : Z)
    (creds : string) : Py MCPResult :=
  let mcp_request := {| version := "1.0"; tool_endpoint := endpoint; parameters := params;
                        credentials := prepare_credentials creds;
                        trace_id := generated_trace_id; timeout := tmo |} in
  let attempt :=
    let* mcp_response := transport_send mcp_request tmo in
    let* _ := validate_response mcp_response in
    Ok {| result_status := "SUCCESS"; result_data := resp_data mcp_response;
          result_metadata := resp_metadata mcp_response; result_error := None |} in
  match attempt with
  | Raise e =>
      if is_exn "MCPTimeoutError" e then
        Ok {| result_status := "TIMEOUT"; result_data := None; result_metadata := [];
              result_error := Some "MCP call timed out" |}
      else if is_exn "MCPServerError" e then
        Ok {| result_status := "SERVER_ERROR"; result_data := None; result_metadata := [];
              result_error := Some (exn_message e) |}
      else Raise e
  | ok => ok
  end.

End Client.

(** [AttributeError] of a failed attribute lookup on a class. *)
Definition no_attribute (cls name : string) : Exn :=
  OtherException "AttributeError" ("type object '" ++ cls ++ "' has no attribute '" ++ name ++ "'").

(** [MCPResponse.name(...)], as [handle_request] calls it for [name] among
    [unauthorized], [forbidden], [bad_request], [rate_limited] and
    [success]: the [MCPResponse] dataclass declares four fields without
    defaults and no methods, so the class has no such attribute and the
    lookup raises before any argument is used. *)
Definition MCPResponse_classmethod (name : string) : Py MCPResponse :=
  Raise (no_attribute "MCPResponse" name).

(** The observable effects of [handle_request]: the audit log's entries
    and the call of the tool logic. *)
Inductive ServerEvent :=
  | AuditBegin (audit_id : nat)
  | Executed
  | AuditComplete (audit_id : nat) (audit_status : string) (detail : string).

Record AuthCheck := mkAuthCheck {
  authenticated : bool;
  auth_user : string
}.

Section Server.

Variable Ctx : Type.
Variable verify_auth : string -> Ctx -> AuthCheck.
Variable check_authorization : string -> string -> bool.
(** [self._validate_input]: [valid] and [errors]. *)
Variable validate_input : list (string * string) -> bool * list string.
(** [rate_check.exceeded] *)
Variable rate_exceeded : string -> bool.
(** The subclass's [execute]. *)
Variable execute : list (string * string) -> Ctx -> Py string.
Variable validate_output : string -> bool.

(** [GeisingerMCPServer.handle_request]: [log] is the audit log and call
    trace so far; the audit logger numbers its entries in order. The
    [try] block runs from the tool call to the success response, and its
    [except Exception] completes the audit entry as FAILURE and re-raises. *)
Definition handle_request (request : MCPRequest) (context : Ctx) (log : list ServerEvent)
    : Py MCPResponse * list ServerEvent :=
  let auth_result := verify_auth (credentials request) context in
  if negb (authenticated auth_result) then (MCPResponse_classmethod "unauthorized", log) else
  if negb (check_authorization (auth_user auth_result) (tool_endpoint request))
  then (MCPResponse_classmethod "forbidden", log) else
  let validation_result := validate_input (parameters request) in
  if negb (fst validation_result) then (MCPResponse_classmethod "bad_request", log) else
  if rate_exceeded (auth_user auth_result) then (MCPResponse_classmethod "rate_limited", log) else
  let audit_id := length log in
  let log1 := log ++ [AuditBegin audit_id; Executed] in
  let try_block :=
    match (let* result := execute (parameters request) context in
           if negb (validate_output result) then
             Raise (OtherException "MCPServerError" "Invalid output generated")
           else Ok result) with
    | Ok result =>
        (MCPResponse_classmethod "success", log1 ++ [AuditComplete audit_id "SUCCESS" result])
    | Raise e => (Raise e, log1)
    end in
  match try_block with
  | (Raise e, log2) => (Raise e, log2 ++ [AuditComplete audit_id "FAILURE" (exn_message e)])
  | done => done
  end.

End Server.

(** [parameters.get(key)] *)
Fixpoint get (key : string) (d : list (string * string)) : option string :=
  match d with
  | [] => None
  | (k, v) :: rest => if String.eqb k key then Some v else get key rest
  end.

Section EHR.

Variable Ctx : Type.
Variable PatientRecord : Type.
(** [self.ehr_client.get_patient(patient_id, data_type)] *)
Variable ehr_get_patient : string -> string -> Py PatientRecord.
Variable transform_patient_data : PatientRecord -> string.
Variable get_lab_results : list (string * string) -> Ctx -> Py string.

(** [EHRMCPServer._fetch_patient_data] *)
Definition fetch_patient_data (params : list (string * string)) (context : Ctx) : Py string :=
  match get "patient_id" params with
  | None => Raise (OtherException "KeyError" "'patient_id'")
  | Some patient_id =>
      let data_type := match get "data_type" params with Some d => d | None => "summary" end in
      let* ehr_data := ehr_get_patient patient_id data_type in
      Ok (transform_patient_data ehr_data)
  end.

(** [EHRMCPServer.execute]; a missing operation formats as [None]. *)
Definition ehr_execute (params : list (string * string)) (context : Ctx) : Py string :=
  let operation := get "operation" params in
  match operation with
  | Some op =>
      if String.eqb op "fetch_patient_data" then fetch_patient_data params context
      else if String.eqb op "get_lab_results" then get_lab_results params context
      else Raise (OtherException "MCPServerError" ("Unknown operation: " ++ op))
  | None => Raise (OtherException "MCPServerError" "Unknown operation: None")
  end.

End EHR.

End MCP.

(** ** Concrete collaborators, used to run the model on small inputs *)

Module Demo.
Import Agent.

Definition task : Task := mkTask "T-1" "create intake ticket" ["ticket created"].

Definition get_tool (id : string) : Py unit := Ok tt.

(** A tool whose behaviour is chosen by its [mode] parameter. *)
Definition tool_execute (_ : unit) (params : list (string * string)) (_ : ExecutionContext) : Py ToolResult :=
  match params with
  | ("mode", "fail") :: _ => Raise (ToolExecutionError "ticket system unavailable")
  | ("mode", "deny") :: _ => Raise (UnauthorizedError "role not allowed")
  | _ => Ok (mkToolResult "SUCCESS" "done" 5)
  end.

Definition execute_parallel (step : PlanStep) (ctx : ExecutionContext) : Py StepResult :=
  execute_sequential get_tool tool_execute step ctx.

Definition aggregate_outputs (rs : list StepResult) : string := "aggregated".

Definition ok_check : Check.t := Check.mk true false "ok" 90.

Definition check_policy_compliance (_ : ExecutionResult) (_ : string) (_ : list string) : Check.t := ok_check.
(** The completeness check passes exactly on a successful execution. *)
Definition check_completeness (r : ExecutionResult) (_ : list string) : Check.t :=
  if String.eqb (er_status r) "SUCCESS" then ok_check else Check.mk false false "steps missing" 0.
Definition check_consistency (_ : ExecutionResult) (_ : list string) : Check.t := ok_check.
Definition check_quality (_ : ExecutionResult) (_ : list string) : Check.t := ok_check.
Definition assess_confidence (_ : ExecutionResult) (_ : ExecutionContext) : Check.t := ok_check.
Definition check_safety (_ : ExecutionResult) (_ : ExecutionContext) : Check.t := ok_check.
Definition extract_issues (cs : list Check.t) : list string :=
  map Check.message (filter (fun c => negb (Check.passed c)) cs).

Definition load_meta_blueprint : Py string := Ok "meta-blueprint".
Definition classify_domain (_ : Task) : Py string := Ok "intake".
Definition load_domain_blueprints (_ : string) : Py (list string) := Ok ["intake-blueprint"].
Definition gather_context (_ : ExecutionContext) : Py unit := Ok tt.
Definition update_from_verification (v : VerificationResult) (ctx : ExecutionContext) : ExecutionContext :=
  {| ctx_task := ctx_task ctx; meta_blueprint := meta_blueprint ctx;
     domain_blueprints := domain_blueprints ctx; step_results := step_results ctx;
     history := history ctx; domain_standards := domain_standards ctx;
     trace := trace ctx ++ issues v |}.
Definition escalation_reason (_ : VerificationResult) : string := "critical check failed".

Definition step_search : PlanStep := mkPlanStep "search" [] false false.
Definition step_ticket_fail : PlanStep := mkPlanStep "create_ticket" [("mode", "fail")] true false.
Definition step_ticket_deny : PlanStep := mkPlanStep "create_ticket" [("mode", "deny")] false false.
Definition step_notify : PlanStep := mkPlanStep "notify" [] false false.

(** Two steps, the second critical and failing, then one more. *)
Definition plan_failing : Plan := mkPlan [step_search; step_ticket_fail; step_notify] ["ticket created"] false 0.
Definition plan_ok : Plan := mkPlan [step_search; step_notify] ["ticket created"] false 0.
Definition plan_denied : Plan := mkPlan [step_search; step_ticket_deny] ["ticket created"] false 0.

Definition create_plan_with (p : Plan) (_ : Task) (_ : unit) (_ : nat) : Py Plan := Ok p.

Definition ctx0 : ExecutionContext :=
  initial_context task "meta-blueprint" ["intake-blueprint"].

(** [execute_task] with every collaborator above and plans from [p]. *)
Definition run_task (p : Plan) : Py AgentResponse :=
  execute_task get_tool tool_execute execute_parallel aggregate_outputs
    check_policy_compliance check_completeness check_consistency check_quality
    assess_confidence check_safety extract_issues
    load_meta_blueprint classify_domain load_domain_blueprints gather_context
    (create_plan_with p) update_from_verification escalation_reason task.

End Demo.

Module DemoCompaction.
Import Compaction.

(** A fresh, empty working memory. *)
Definition empty_memory : WorkingMemory := mkWorkingMemory 50000 [] [] [] [].

(** Helpers that keep every item flagged critical, summarise by keeping the
    turns, and count one token per character. *)
Definition critical_items (wm : WorkingMemory) : list string := temporary_conclusions wm.
Definition extract_critical_data (wm : WorkingMemory) : list string := temporary_conclusions wm.
Definition summarize_conversation (turns : list string) (ratio : Z) : string := String.concat " " turns.
Definition compress_tool_results (rs : list (string * string)) : string := String.concat " " (map snd rs).
Definition count_tokens (critical : list string) (summary tool_summary : string) : Z :=
  Z.of_nat (String.length (String.concat "" critical) + String.length summary + String.length tool_summary).
Definition wm_count_tokens (wm : WorkingMemory) : Z :=
  Z.of_nat (String.length (String.concat "" (conversation_history wm))
            + String.length (String.concat "" (temporary_conclusions wm))).

Definition compact (wm : WorkingMemory) (target : Z) : Py CompactionResult :=
  compact_working_memory extract_critical_data summarize_conversation compress_tool_results
    count_tokens wm_count_tokens critical_items wm target.

End DemoCompaction.

Module DemoTools.
Import ToolExec.

Definition spec_cacheable : ToolSpec :=
  mkToolSpec "fetch_record" "mcp://records/fetch" ["record_id"] true 1000 true 300.
Definition params : list (string * string) := [("record_id", "42")].
Definition cached_result : ToolResult := mkToolResult "SUCCESS" (Some "record 42") None "fetch_record".

(** The user is a role name; only "clinical_agent" is authorised and has
    given consent. *)
Definition check_authorization (user : string) (spec : ToolSpec) : AuthResult :=
  if String.eqb user "clinical_agent" then mkAuthResult true "" "token"
  else mkAuthResult false "role not allowed" "".
Definition get_consent (user : string) (_ : ToolSpec) (_ : list (string * string)) : bool :=
  String.eqb user "clinical_agent".
Definition validate_parameters (p : list (string * string)) (_ : list string) : Py (list (string * string)) := Ok p.
Definition generate_cache_key (spec : ToolSpec) (_ : list (string * string)) : string := spec_id spec.
Definition mcp_call_tool (_ : string) (_ : list (string * string)) (_ : Z) (_ : string) : Py string := Ok "record 42".
Definition verify_result (d : string) (spec : ToolSpec) : Py ToolResult :=
  Ok (mkToolResult "SUCCESS" (Some d) None (spec_id spec)).

(** A cache that already holds the result for this call. *)
Definition warm_state : State := mkState [("fetch_record", mkCacheEntry cached_result 300)] [] 0.

Definition run (user : string) (st : State) : Py ToolResult * State :=
  execute string string (fun u => u) check_authorization get_consent validate_parameters
    generate_cache_key mcp_call_tool verify_result spec_cacheable params user st.

End DemoTools.

Module DemoApproval.
Import Tier Approval.

Definition proposal : ActionProposal :=
  mkActionProposal "update medication list" "patient 42" "reconciliation found a duplicate" 92 "HIGH"
    [mkVerificationCheck "policy compliant" true; mkVerificationCheck "no PHI in notes" false].
Definition get_timeout (t : HITLTier) : Z := match t with TIER_4 => 900 | _ => 3600 end.
Definition get_required_approver (_ : Action) : string := "physician".
Definition generate_summary (p : ActionProposal) : string := action_description p.

(** An irreversible LOW-impact action: tier 4, no modification allowed. *)
Definition action_tier4 : Action := mkAction LOW NONE RESTRICTED.
Definition requirements_tier4 : ApprovalRequirements :=
  get_approval_requirements get_timeout get_required_approver action_tier4 (classify_action action_tier4).

Definition answer (a : string) : UserResponse := mkUserResponse a "dr_a" "not indicated" "dose 5mg".

End DemoApproval.

Module DemoRegistry.
Import ToolExec Registry.

Definition validate_spec (_ : ToolSpec) : Py unit := Ok tt.
Definition empty : RegistryState := mkRegistryState [] [].
(** A registry whose backend already holds the record tool, not yet cached. *)
Definition stored : RegistryState := mkRegistryState [("fetch_record", DemoTools.spec_cacheable)] [].

End DemoRegistry.

Module DemoExec.
Import ToolExec.

Definition spec_plain : ToolSpec :=
  mkToolSpec "fetch_record" "mcp://records/fetch" ["record_id"] true 1000 false 300.
Definition cold : State := mkState [] [] 0.
Definition record_result : ToolResult := mkToolResult "SUCCESS" (Some "record 42") None "fetch_record".
Definition mcp_down (_ : string) (_ : list (string * string)) (_ : Z) (_ : string) : Py string :=
  Raise (MCPError "connection refused").

Definition output_schema (_ : ToolSpec) : string := "record".
Definition required_fields (_ : ToolSpec) : list string := ["patient_id"].
Definition validate_schema (_ : string) (_ : string) : ToolVerifier.ValidationCheck :=
  ToolVerifier.mkValidationCheck "schema" true.
(** The output lacks its required fields. *)
Definition check_completeness (_ : string) (_ : list string) : ToolVerifier.ValidationCheck :=
  ToolVerifier.mkValidationCheck "completeness" false.
Definition check_safety (_ : string) (_ : ToolSpec) : ToolVerifier.ValidationCheck :=
  ToolVerifier.mkValidationCheck "safety" true.
Definition repr_checks (l : list ToolVerifier.ValidationCheck) : string :=
  String.concat ", " (map ToolVerifier.check_name l).

Definition run_with (spec : ToolSpec) (mcp : string -> list (string * string) -> Z -> string -> Py string)
    (verify : string -> ToolSpec -> Py ToolResult) (st : State) : Py ToolResult * State :=
  execute string string (fun u => u) DemoTools.check_authorization DemoTools.get_consent
    DemoTools.validate_parameters DemoTools.generate_cache_key mcp verify spec DemoTools.params
    "clinical_agent" st.

End DemoExec.

Module DemoServer.
Import MCP.

Definition verify_auth (cred : string) (_ : unit) : AuthCheck := mkAuthCheck (String.eqb cred "token") "dr_a".
Definition check_authorization (_ : string) (_ : string) : bool := true.
Definition validate_input (_ : list (string * string)) : bool * list string := (true, []).
Definition rate_exceeded (_ : string) : bool := false.
Definition validate_output (_ : string) : bool := true.
Definition echo_execute (_ : list (string * string)) (_ : unit) : Py string := Ok "ok".

Definition ehr_get_patient (pid data_type : string) : Py string := Ok (pid ++ ":" ++ data_type)%string.
Definition get_lab_results (_ : list (string * string)) (_ : unit) : Py string := Ok "labs".

Definition request (params : list (string * string)) : MCPRequest :=
  mkMCPRequest "1.0" "mcp://ehr" params "token" "trace-1" 30.

End DemoServer.

Module DemoAgent.
Import Agent.

Definition step_lookup_fail : PlanStep := mkPlanStep "lookup" [("mode", "fail")] false false.
(** A plan whose middle step fails without being critical. *)
Definition plan_tolerant : Plan :=
  mkPlan [Demo.step_search; step_lookup_fail; Demo.step_notify] ["ticket created"] false 0.
(** A safety check that finds PHI in the output and is critical. *)
Definition check_safety_phi (_ : ExecutionResult) (_ : ExecutionContext) : Check.t :=
  Check.mk false true "PHI in output" 0.

End DemoAgent.

(** * Properties *)

Module TierFacts.
Import Tier.

(** C2 (counterexample): the classifier does not compute the four-row table
    of the spec. For (MEDIUM, FULL, RESTRICTED) no row of the table matches
    (row 2 excludes RESTRICTED, row 4 needs NONE), yet the classifier returns
    tier 2. *)
Lemma classify_action_not_spec_table :
  spec_table (mkAction MEDIUM FULL RESTRICTED) = None /\
  classify_action (mkAction MEDIUM FULL RESTRICTED) = TIER_2 /\
  ~ (forall a, spec_table a = Some (classify_action a)).
Proof.
  split; [reflexivity | split; [reflexivity |]].
  intros H. specialize (H (mkAction MEDIUM FULL RESTRICTED)). discriminate H.
Qed.

(** C2 (amended): over the sensitivities PUBLIC..RESTRICTED the classifier
    is, first match winning: (LOW, FULL, any) gives tier 1; (MEDIUM, FULL or
    PARTIAL, any sensitivity) gives tier 2; (HIGH, any, any) gives tier 3;
    every other action gives tier 4. It agrees with the spec's table on every
    action some row of that table matches. *)
Theorem classify_action_decision_table : forall a : Action,
  classify_action a =
    match impact a, reversibility a with
    | LOW, FULL => TIER_1
    | MEDIUM, (FULL | PARTIAL) => TIER_2
    | HIGH, _ => TIER_3
    | _, _ => TIER_4
    end /\
  (forall t, spec_table a = Some t -> classify_action a = t).
Proof.
  intros [i r d]; destruct i, r, d; cbn;
    (split; [reflexivity | intros t Ht; congruence]).
Qed.

(** C3: raising the data sensitivity of an action from PUBLIC to RESTRICTED
    never lowers its tier. *)
Theorem classify_action_sensitivity_monotone : forall (i : Impact) (r : Reversibility),
  (tier_num (classify_action (mkAction i r PUBLIC))
     <= tier_num (classify_action (mkAction i r RESTRICTED)))%nat.
Proof.
  intros i r; destruct i, r; cbn; lia.
Qed.

(** On the four declared sensitivity levels the enumerated model agrees with
    the string-level one. *)
Lemma classify_action_raw : forall a : Action,
  classify_action a =
    classify_raw (mkRawAction (impact_name (impact a)) (rev_name (reversibility a))
                   (sensitivity_name (data_sensitivity a))).
Proof.
  intros [i r d]; destruct i, r, d; reflexivity.
Qed.

(** PHI data lifts a LOW-impact irreversible action from tier 4 to tier 3. *)
Example classify_raw_phi :
  classify_raw (mkRawAction "LOW" "NONE" "PHI") = TIER_3 /\
  classify_raw (mkRawAction "LOW" "NONE" "RESTRICTED") = TIER_4.
Proof. split; reflexivity. Qed.

End TierFacts.

Module AgentFacts.
Import Agent.

(** ** The self-verifier *)

(** C1: [verify] lists the six checks in order; [passed] is the conjunction
    of their [passed] flags; [complete] is [passed] and no remaining plan
    steps; [should_escalate] holds exactly when some check failed and is
    critical, so one critical failed check forces it whatever the others
    say. *)
Theorem verify_aggregate :
  forall cp cc cs cq ca csf ei (result : ExecutionResult) (plan : Plan) (ctx : ExecutionContext),
  let v := verify cp cc cs cq ca csf ei result plan ctx in
  checks v = [cp result (meta_blueprint ctx) (domain_blueprints ctx);
              cc result (requirements plan); cs result (history ctx);
              cq result (domain_standards ctx); ca result ctx; csf result ctx] /\
  v_passed v = forallb Check.passed (checks v) /\
  complete v = v_passed v && negb (has_more_steps plan) /\
  (should_escalate v = true <->
     exists c, In c (checks v) /\ Check.failed c = true /\ Check.critical c = true) /\
  (forall c, In c (checks v) -> Check.passed c = false -> Check.critical c = true ->
     should_escalate v = true).
Proof.
  intros cp cc cs cq ca csf ei result plan ctx v.
  assert (Hesc : should_escalate v = true <->
     exists c, In c (checks v) /\ Check.failed c = true /\ Check.critical c = true).
  { unfold v, verify; cbn [should_escalate checks].
    rewrite existsb_exists. split.
    - intros [c [Hin Hc]]. apply andb_true_iff in Hc. exists c. tauto.
    - intros [c [Hin [Hf Hcr]]]. exists c. rewrite Hf, Hcr. auto. }
  split; [reflexivity |].
  split; [reflexivity |].
  split; [reflexivity |].
  split; [exact Hesc |].
  intros c Hin Hp Hcr. apply Hesc. exists c. unfold Check.failed. rewrite Hp. auto.
Qed.

Section Executor.

Variable Tool : Type.
Variable get_tool : string -> Py Tool.
Variable tool_execute : Tool -> list (string * string) -> ExecutionContext -> Py ToolResult.
Variable execute_parallel : PlanStep -> ExecutionContext -> Py StepResult.
Variable aggregate_outputs : list StepResult -> string.

Local Abbreviation exec_steps := (execute_steps get_tool tool_execute execute_parallel aggregate_outputs).
Local Abbreviation exec_plan := (execute_plan get_tool tool_execute execute_parallel aggregate_outputs).
Local Abbreviation exec_step := (execute_step get_tool tool_execute execute_parallel).
Local Abbreviation continues := (steps_continue get_tool tool_execute execute_parallel).

Lemma execute_steps_prefix : forall pre acc ctx results ctx' rest,
  continues pre acc ctx results ctx' ->
  exec_steps (pre ++ rest) acc ctx = exec_steps rest results ctx'.
Proof.
  intros pre acc ctx results ctx' rest H.
  induction H as [results ctx | step tl results ctx sr results_end ctx_end Hex Hnf _ IH];
    [reflexivity |].
  cbn [app execute_steps]. rewrite Hex. cbn [py_bind]. rewrite Hnf. exact IH.
Qed.

Lemma steps_continue_length : forall pre acc ctx results ctx',
  continues pre acc ctx results ctx' -> length results = (length acc + length pre)%nat.
Proof.
  intros pre acc ctx results ctx' H.
  induction H as [results ctx | step tl results ctx sr results_end ctx_end _ _ _ IH];
    cbn [length]; [lia |].
  rewrite IH, length_app. cbn [length]. lia.
Qed.

(** C5: when the steps before [s] run without a critical failure and the
    critical step [s] yields a failed step result, [execute_plan] returns at
    once a FAILED execution result holding only the results produced so far
    (one per step up to [s]); the result does not depend on the remaining
    steps, which are never run. *)
Theorem execute_plan_critical_abort :
  forall (plan : Plan) pre s post ctx results ctx' sr,
  steps plan = pre ++ s :: post ->
  continues pre [] ctx results ctx' ->
  critical s = true ->
  exec_step s ctx' = Ok sr ->
  failure sr = true ->
  exec_plan plan ctx =
    Ok ({| er_steps := results ++ [sr]; er_status := "FAILED";
           failure_reason := sr_error sr; output := None |},
        add_step_result ctx' sr) /\
  length (results ++ [sr]) = S (length pre) /\
  (forall post', exec_steps (pre ++ s :: post') [] ctx = exec_plan plan ctx).
Proof.
  intros plan pre s post ctx results ctx' sr Hsteps Hpre Hcrit Hs Hfail.
  assert (Hrun : forall post', exec_steps (pre ++ s :: post') [] ctx =
    Ok ({| er_steps := results ++ [sr]; er_status := "FAILED";
           failure_reason := sr_error sr; output := None |}, add_step_result ctx' sr)).
  { intros post'. rewrite (execute_steps_prefix _ _ _ _ _ _ Hpre).
    cbn [execute_steps]. rewrite Hs. cbn [py_bind]. rewrite Hfail, Hcrit. reflexivity. }
  assert (Hplan : exec_plan plan ctx = Ok ({| er_steps := results ++ [sr]; er_status := "FAILED";
           failure_reason := sr_error sr; output := None |}, add_step_result ctx' sr)).
  { unfold execute_plan. rewrite Hsteps. apply Hrun. }
  split; [exact Hplan |]. split.
  - rewrite length_app, (steps_continue_length _ _ _ _ _ Hpre). cbn [length]. lia.
  - intros post'. rewrite Hplan. apply Hrun.
Qed.

End Executor.

Section Orchestrator.

Variable Tool : Type.
Variable get_tool : string -> Py Tool.
Variable tool_execute : Tool -> list (string * string) -> ExecutionContext -> Py ToolResult.
Variable execute_parallel : PlanStep -> ExecutionContext -> Py StepResult.
Variable aggregate_outputs : list StepResult -> string.
Variable check_policy_compliance : ExecutionResult -> string -> list string -> Check.t.
Variable check_completeness : ExecutionResult -> list string -> Check.t.
Variable check_consistency : ExecutionResult -> list string -> Check.t.
Variable check_quality : ExecutionResult -> list string -> Check.t.
Variable assess_confidence : ExecutionResult -> ExecutionContext -> Check.t.
Variable check_safety : ExecutionResult -> ExecutionContext -> Check.t.
Variable extract_issues : list Check.t -> list string.
Variable Gathered : Type.
Variable load_meta_blueprint : Py string.
Variable classify_domain : Task -> Py string.
Variable load_domain_blueprints : string -> Py (list string).
Variable gather_context : ExecutionContext -> Py Gathered.
Variable create_plan : Task -> Gathered -> nat -> Py Plan.
Variable update_from_verification : VerificationResult -> ExecutionContext -> ExecutionContext.
Variable escalation_reason : VerificationResult -> string.

Local Abbreviation exec_plan := (execute_plan get_tool tool_execute execute_parallel aggregate_outputs).
Local Abbreviation verify_v := (verify check_policy_compliance check_completeness check_consistency
  check_quality assess_confidence check_safety extract_issues).
Local Abbreviation loop := (agent_loop get_tool tool_execute execute_parallel aggregate_outputs
  check_policy_compliance check_completeness check_consistency check_quality
  assess_confidence check_safety extract_issues gather_context create_plan
  update_from_verification escalation_reason).
Local Abbreviation run_task := (execute_task get_tool tool_execute execute_parallel aggregate_outputs
  check_policy_compliance check_completeness check_consistency check_quality
  assess_confidence check_safety extract_issues load_meta_blueprint classify_domain
  load_domain_blueprints gather_context create_plan update_from_verification escalation_reason).
Local Abbreviation inconclusive := (inconclusive_run get_tool tool_execute execute_parallel aggregate_outputs
  check_policy_compliance check_completeness check_consistency check_quality
  assess_confidence check_safety extract_issues gather_context create_plan
  update_from_verification).
Local Abbreviation exec_step := (execute_step get_tool tool_execute execute_parallel).
Local Abbreviation continues := (steps_continue get_tool tool_execute execute_parallel).

(** When an iteration's verification is complete the loop stops at that
    iteration and builds [AgentResponse(result=..., verification=...,
    trace=...)]: the five other fields of the dataclass are missing, so the
    call raises [TypeError] and no response is returned. *)
Lemma agent_loop_complete_raises :
  forall fuel it task ctx g plan er ctx1,
  gather_context ctx = Ok g ->
  create_plan task g it = Ok plan ->
  exec_plan plan ctx = Ok (er, ctx1) ->
  complete (verify_v er plan ctx1) = true ->
  loop (S fuel) it task ctx =
    Raise (type_error ("AgentResponse.__init__() missing 5 required positional arguments: "
      ++ "'task_id', 'status', 'recommendations', 'requires_approval', and 'hitl_tier'")).
Proof.
  intros fuel it task ctx g plan er ctx1 Hg Hp He Hc.
  cbn [agent_loop]. rewrite Hg. cbn [py_bind]. rewrite Hp. cbn [py_bind].
  rewrite He. cbn [py_bind fst snd]. rewrite Hc. reflexivity.
Qed.

Lemma agent_loop_inconclusive : forall task n it ctx ctx_end,
  inconclusive task n it ctx ctx_end ->
  loop n it task ctx = max_iterations_response ctx_end.
Proof.
  intros task n it ctx ctx_end H.
  induction H as [it ctx | n it ctx g plan er ctx1 ctx_end Hg Hp He Hc Hs _ IH];
    [reflexivity |].
  cbn [agent_loop]. rewrite Hg. cbn [py_bind]. rewrite Hp. cbn [py_bind].
  rewrite He. cbn [py_bind fst snd]. rewrite Hc, Hs. exact IH.
Qed.

(** [AgentResponse(status="MAX_ITERATIONS", trace=...)] leaves six fields
    out and raises [TypeError]. *)
Lemma max_iterations_response_raises : forall ctx,
  max_iterations_response ctx =
    Raise (type_error ("AgentResponse.__init__() missing 6 required positional arguments: "
      ++ "'task_id', 'result', 'verification', 'recommendations', 'requires_approval', "
      ++ "and 'hitl_tier'")).
Proof. reflexivity. Qed.

(** When each of the [max_iterations] iterations reaches a verification that
    is neither complete nor escalating, [execute_task] raises the
    [TypeError] of the MAX_ITERATIONS response instead of returning it. *)
Lemma execute_task_max_iterations :
  forall task mb domain dbs ctx_end,
  load_meta_blueprint = Ok mb ->
  classify_domain task = Ok domain ->
  load_domain_blueprints domain = Ok dbs ->
  inconclusive task max_iterations 0 (initial_context task mb dbs) ctx_end ->
  run_task task = max_iterations_response ctx_end.
Proof.
  intros task mb domain dbs ctx_end Hmb Hd Hdb Hrun.
  unfold execute_task. rewrite Hmb. cbn [py_bind]. rewrite Hd. cbn [py_bind].
  rewrite Hdb. cbn [py_bind]. exact (agent_loop_inconclusive _ _ _ _ _ Hrun).
Qed.

(** C7 (amended): [_execute_sequential] turns a [ToolExecutionError] of the
    tool into a FAILED step result; any other exception of the tool, and any
    exception of the tool lookup, leaves it unchanged; the step loop of
    [execute_plan] lets an exception of a step out, whatever steps come after
    it; and the orchestrator's loop lets an exception of the executor out of
    [execute_task]. *)
Theorem act_exceptions_propagate :
  (forall step ctx t msg,
     get_tool (tool_id step) = Ok t ->
     tool_execute t (parameters step) ctx = Raise (ToolExecutionError msg) ->
     execute_sequential get_tool tool_execute step ctx =
       Ok {| sr_step := step; sr_status := "FAILED"; sr_output := None;
             sr_error := Some msg; failure := true; duration := None |}) /\
  (forall step ctx t e,
     get_tool (tool_id step) = Ok t ->
     tool_execute t (parameters step) ctx = Raise e ->
     (forall msg, e <> ToolExecutionError msg) ->
     execute_sequential get_tool tool_execute step ctx = Raise e) /\
  (forall step ctx e,
     get_tool (tool_id step) = Raise e ->
     execute_sequential get_tool tool_execute step ctx = Raise e) /\
  (forall (plan : Plan) pre s post ctx results ctx' e,
     steps plan = pre ++ s :: post ->
     continues pre [] ctx results ctx' ->
     exec_step s ctx' = Raise e ->
     exec_plan plan ctx = Raise e) /\
  (forall fuel it task ctx g plan e,
     gather_context ctx = Ok g ->
     create_plan task g it = Ok plan ->
     exec_plan plan ctx = Raise e ->
     loop (S fuel) it task ctx = Raise e) /\
  (forall task mb domain dbs e,
     load_meta_blueprint = Ok mb ->
     classify_domain task = Ok domain ->
     load_domain_blueprints domain = Ok dbs ->
     loop max_iterations 0 task (initial_context task mb dbs) = Raise e ->
     run_task task = Raise e).
Proof.
  split; [| split; [| split; [| split; [| split]]]].
  - intros step ctx t msg Ht Hx. unfold execute_sequential. rewrite Ht. cbn [py_bind].
    rewrite Hx. reflexivity.
  - intros step ctx t e Ht Hx Hne. unfold execute_sequential. rewrite Ht. cbn [py_bind].
    rewrite Hx. destruct e; try reflexivity. exfalso. eapply Hne. reflexivity.
  - intros step ctx e Ht. unfold execute_sequential. rewrite Ht. reflexivity.
  - intros plan pre s post ctx results ctx' e Hsteps Hpre Hs.
    unfold execute_plan. rewrite Hsteps.
    rewrite (execute_steps_prefix _ get_tool tool_execute execute_parallel aggregate_outputs
      _ _ _ _ _ _ Hpre).
    cbn [execute_steps]. rewrite Hs. reflexivity.
  - intros fuel it task ctx g plan e Hg Hp He.
    cbn [agent_loop]. rewrite Hg. cbn [py_bind]. rewrite Hp. cbn [py_bind]. rewrite He.
    reflexivity.
  - intros task mb domain dbs e Hmb Hd Hdb Hl.
    unfold execute_task. rewrite Hmb. cbn [py_bind]. rewrite Hd. cbn [py_bind].
    rewrite Hdb. cbn [py_bind]. exact Hl.
Qed.

End Orchestrator.

End AgentFacts.

Module BudgetFacts.
Import Budget.

(** C4 (code evaluated at the failing input): five rounds of
    [check_budget("working_memory", 50000)] followed by
    [allocate("working_memory", 50000)] on a fresh manager. No check answers
    OVER_ALLOCATION (three APPROVED, then WARNING), every allocation is
    applied, and after a final [check_budget] the usage is 250000, above the
    200000 ceiling. *)
Theorem check_budget_allows_overrun :
  let round := [CheckBudget "working_memory" 50000; Allocate "working_memory" 50000] in
  let ops := round ++ round ++ round ++ round ++ round ++ [CheckBudget "working_memory" 0] in
  map status (snd (run init ops)) =
    ["APPROVED"; "APPROVED"; "APPROVED"; "WARNING"; "WARNING"; "WARNING"] /\
  used (fst (run init ops)) = 250000 /\
  used (fst (run init ops)) > total_budget (fst (run init ops)).
Proof.
  cbv zeta. split; [reflexivity | split; [reflexivity | vm_compute; reflexivity]].
Qed.

(** [check_budget] never changes the manager: usage after it is usage
    before it. *)
Lemma run_check_budget_keeps_usage : forall m c r rest,
  fst (run m (CheckBudget c r :: rest)) = fst (run m rest).
Proof.
  intros m c r rest. cbn [run]. destruct (run m rest). reflexivity.
Qed.

End BudgetFacts.

Module CompactionFacts.
Import Compaction.

Section Service.
Variable extract_critical_data : WorkingMemory -> list string.
Variable summarize_conversation : list string -> Z -> string.
Variable compress_tool_results : list (string * string) -> string.
Variable count_tokens : list string -> string -> string -> Z.
Variable wm_count_tokens : WorkingMemory -> Z.
Variable critical_items : WorkingMemory -> list string.

Local Abbreviation compact := (compact_working_memory extract_critical_data summarize_conversation
  compress_tool_results count_tokens wm_count_tokens critical_items).

(** A compacted memory that [compact_working_memory] returns holds every
    critical item of its input; when an item is missing it raises
    [CompactionError] and returns no compacted memory. *)
Lemma compact_working_memory_safe : forall wm target,
  (forall r, compact wm target = Ok r ->
     forall x, In x (critical_items wm) -> In x (critical_data (compact_memory r))) /\
  ((exists x, In x (critical_items wm) /\ ~ In x (extract_critical_data wm)) ->
     exists msg, compact wm target = Raise (CompactionError msg)).
Proof.
  intros wm target. unfold compact_working_memory. cbv zeta.
  set (cm := {| critical_data := extract_critical_data wm; conversation_summary := _;
                tool_summary := _; original_size := _; compressed_size := _ |}).
  unfold verify_no_data_loss. cbn [dl_passed missing_items critical_data cm].
  split.
  - intros r Hr x Hx.
    destruct (filter _ (critical_items wm)) as [| y ys] eqn:Hf; cbn in Hr; [| discriminate].
    destruct (Z.eqb _ 0); [discriminate |]. injection Hr as <-. cbn.
    destruct (mem_string x (extract_critical_data wm)) eqn:Hm.
    + unfold mem_string in Hm. apply existsb_exists in Hm as [y [Hy Heq]].
      apply String.eqb_eq in Heq. subst y. exact Hy.
    + assert (In x (filter (fun x => negb (mem_string x (extract_critical_data wm))) (critical_items wm))).
      { apply filter_In. rewrite Hm. auto. }
      rewrite Hf in H. destruct H.
  - intros [x [Hx Hn]].
    assert (Hin : In x (filter (fun x => negb (mem_string x (extract_critical_data wm))) (critical_items wm))).
    { apply filter_In. split; [exact Hx |].
      destruct (mem_string x (extract_critical_data wm)) eqn:Hm; [| reflexivity].
      exfalso. apply Hn. unfold mem_string in Hm. apply existsb_exists in Hm as [y [Hy Heq]].
      apply String.eqb_eq in Heq. subst y. exact Hy. }
    destruct (filter _ (critical_items wm)) as [| y ys]; [destruct Hin |].
    cbn. eexists. reflexivity.
Qed.

End Service.

(** C8 (code evaluated at the failing input): compacting a fresh, empty
    working memory, with one token counted per character, passes the
    critical-data check but then divides the original size by a compressed
    size of 0: it raises [ZeroDivisionError], not [CompactionError]. *)
Theorem compact_empty_memory_zero_division :
  DemoCompaction.compact DemoCompaction.empty_memory 10000 = Raise ZeroDivisionError.
Proof. reflexivity. Qed.

End CompactionFacts.

Module ToolExecFacts.
Import ToolExec.

Section Executor.
Variable User : Type.
Variable Context : Type.
Variable context_user : Context -> User.
Variable check_authorization : User -> ToolSpec -> AuthResult.
Variable get_consent : User -> ToolSpec -> list (string * string) -> bool.
Variable validate_parameters : list (string * string) -> list string -> Py (list (string * string)).
Variable generate_cache_key : ToolSpec -> list (string * string) -> string.
Variable mcp_call_tool : string -> list (string * string) -> Z -> string -> Py string.
Variable verify_result : string -> ToolSpec -> Py ToolResult.

Local Abbreviation exec := (execute User Context context_user check_authorization get_consent
  validate_parameters generate_cache_key mcp_call_tool verify_result).

(** C10: authorization, then consent when the tool requires it, are decided
    before anything else: an unauthorised caller gets [UnauthorizedError] and
    a non-consenting one [ConsentDeniedError], whatever the cache holds, and
    the executor's state is left as it was: no cache read, no tool call, no
    cache write. *)
Theorem execute_checks_before_cache : forall spec params context st,
  (authorized (check_authorization (context_user context) spec) = false ->
   exec spec params context st =
     (Raise (UnauthorizedError (reason (check_authorization (context_user context) spec))), st)) /\
  (authorized (check_authorization (context_user context) spec) = true ->
   requires_consent spec = true ->
   get_consent (context_user context) spec params = false ->
   exec spec params context st = (Raise ConsentDeniedError, st)).
Proof.
  intros spec params context st. split.
  - intros Ha. unfold execute. rewrite Ha. reflexivity.
  - intros Ha Hc Hg. unfold execute. rewrite Ha, Hc, Hg. reflexivity.
Qed.

End Executor.

End ToolExecFacts.

(** ** The theorems at concrete inputs *)

Module Runs.
Import Agent.

Local Abbreviation demo_exec_plan := (execute_plan Demo.get_tool Demo.tool_execute
  Demo.execute_parallel Demo.aggregate_outputs).
Local Abbreviation demo_continues := (steps_continue Demo.get_tool Demo.tool_execute
  Demo.execute_parallel).

(** C5 at the plan [search; create_ticket (critical, failing); notify]. *)
Lemma execute_plan_critical_abort_witness :
  exists results ctx' sr,
  (steps Demo.plan_failing = [Demo.step_search] ++ Demo.step_ticket_fail :: [Demo.step_notify] /\
   demo_continues [Demo.step_search] [] Demo.ctx0 results ctx' /\
   critical Demo.step_ticket_fail = true /\
   execute_step Demo.get_tool Demo.tool_execute Demo.execute_parallel Demo.step_ticket_fail ctx' = Ok sr /\
   failure sr = true) /\
  demo_exec_plan Demo.plan_failing Demo.ctx0 =
    Ok ({| er_steps := results ++ [sr]; er_status := "FAILED";
           failure_reason := sr_error sr; output := None |}, add_step_result ctx' sr).
Proof.
  do 3 eexists. split.
  - split; [reflexivity |].
    split; [eapply sc_cons; [reflexivity | reflexivity | apply sc_nil] |].
    split; [reflexivity | split; reflexivity].
  - eapply (proj1 (AgentFacts.execute_plan_critical_abort _ Demo.get_tool Demo.tool_execute
      Demo.execute_parallel Demo.aggregate_outputs Demo.plan_failing [Demo.step_search]
      Demo.step_ticket_fail [Demo.step_notify] Demo.ctx0 _ _ _ eq_refl _ eq_refl eq_refl eq_refl)).
    Unshelve. eapply sc_cons; [reflexivity | reflexivity | apply sc_nil].
Defined.

(** C6 (code evaluated) at a plan whose two steps succeed: the first
    iteration's verification is complete and the loop stops there, but the
    response it builds, [AgentResponse(result=..., verification=...,
    trace=...)], lacks five of the dataclass's required fields (among them
    [status]), so [execute_task] raises [TypeError] and returns no response,
    with status SUCCESS or any other. *)
Theorem execute_task_complete_raises_type_error :
  (exists er ctx1,
     demo_exec_plan Demo.plan_ok Demo.ctx0 = Ok (er, ctx1) /\
     complete (verify Demo.check_policy_compliance Demo.check_completeness
       Demo.check_consistency Demo.check_quality Demo.assess_confidence Demo.check_safety
       Demo.extract_issues er Demo.plan_ok ctx1) = true) /\
  Demo.run_task Demo.plan_ok =
    Raise (type_error ("AgentResponse.__init__() missing 5 required positional arguments: "
      ++ "'task_id', 'status', 'recommendations', 'requires_approval', and 'hitl_tier'")) /\
  (forall r, Demo.run_task Demo.plan_ok <> Ok r).
Proof.
  split; [do 2 eexists; split; reflexivity |].
  split; [reflexivity |].
  intros r H. discriminate H.
Qed.

(** C9 (code evaluated) at a plan that fails on every iteration without a
    critical check failure: all ten iterations are inconclusive, and after
    the loop [AgentResponse(status="MAX_ITERATIONS", trace=...)] lacks six of
    the dataclass's required fields, so [execute_task] raises [TypeError]
    instead of returning a MAX_ITERATIONS response. *)
Theorem execute_task_max_iterations_type_error :
  (exists ctx_end,
     inconclusive_run Demo.get_tool Demo.tool_execute Demo.execute_parallel Demo.aggregate_outputs
       Demo.check_policy_compliance Demo.check_completeness Demo.check_consistency
       Demo.check_quality Demo.assess_confidence Demo.check_safety Demo.extract_issues
       Demo.gather_context (Demo.create_plan_with Demo.plan_failing) Demo.update_from_verification
       Demo.task max_iterations 0 Demo.ctx0 ctx_end) /\
  Demo.run_task Demo.plan_failing =
    Raise (type_error ("AgentResponse.__init__() missing 6 required positional arguments: "
      ++ "'task_id', 'result', 'verification', 'recommendations', 'requires_approval', "
      ++ "and 'hitl_tier'")) /\
  (forall r, Demo.run_task Demo.plan_failing <> Ok r).
Proof.
  assert (Hrun : exists ctx_end,
     inconclusive_run Demo.get_tool Demo.tool_execute Demo.execute_parallel Demo.aggregate_outputs
       Demo.check_policy_compliance Demo.check_completeness Demo.check_consistency
       Demo.check_quality Demo.assess_confidence Demo.check_safety Demo.extract_issues
       Demo.gather_context (Demo.create_plan_with Demo.plan_failing) Demo.update_from_verification
       Demo.task max_iterations 0 Demo.ctx0 ctx_end).
  { eexists. unfold max_iterations.
    repeat (eapply ir_step; [reflexivity | reflexivity | reflexivity | reflexivity | reflexivity |]).
    apply ir_done. }
  destruct Hrun as [ctx_end Hrun].
  assert (Hraise : Demo.run_task Demo.plan_failing =
    Raise (type_error ("AgentResponse.__init__() missing 6 required positional arguments: "
      ++ "'task_id', 'result', 'verification', 'recommendations', 'requires_approval', "
      ++ "and 'hitl_tier'"))).
  { rewrite <- (AgentFacts.max_iterations_response_raises ctx_end).
    exact (AgentFacts.execute_task_max_iterations _ Demo.get_tool Demo.tool_execute
      Demo.execute_parallel Demo.aggregate_outputs Demo.check_policy_compliance
      Demo.check_completeness Demo.check_consistency Demo.check_quality Demo.assess_confidence
      Demo.check_safety Demo.extract_issues _ Demo.load_meta_blueprint Demo.classify_domain
      Demo.load_domain_blueprints Demo.gather_context (Demo.create_plan_with Demo.plan_failing)
      Demo.update_from_verification Demo.escalation_reason Demo.task _ _ _ _
      eq_refl eq_refl eq_refl Hrun). }
  split; [exists ctx_end; exact Hrun |].
  split; [exact Hraise |].
  intros r H. rewrite Hraise in H. discriminate H.
Qed.

(** C7 (counterexample): a tool that raises [UnauthorizedError] during the
    Act phase. [_execute_sequential] does not turn it into a step result, and
    it escapes [execute_task]. *)
Lemma act_exception_escapes :
  execute_sequential Demo.get_tool Demo.tool_execute Demo.step_ticket_deny Demo.ctx0
    = Raise (UnauthorizedError "role not allowed") /\
  Demo.run_task Demo.plan_denied = Raise (UnauthorizedError "role not allowed") /\
  ~ (forall step ctx e,
       Demo.tool_execute tt (parameters step) ctx = Raise e ->
       exists sr, execute_sequential Demo.get_tool Demo.tool_execute step ctx = Ok sr /\
                  sr_status sr = "FAILED").
Proof.
  split; [reflexivity | split; [reflexivity |]].
  intros H.
  destruct (H Demo.step_ticket_deny Demo.ctx0 (UnauthorizedError "role not allowed") eq_refl)
    as [sr [Hsr _]].
  discriminate Hsr.
Qed.

End Runs.

Module ToolRuns.
Import ToolExec.

(** C10 at a caller without the role, with the result already cached: the
    call raises [UnauthorizedError] and touches neither cache nor tool. *)
Lemma execute_checks_before_cache_witness :
  authorized (DemoTools.check_authorization "financial_agent" DemoTools.spec_cacheable) = false /\
  DemoTools.run "financial_agent" DemoTools.warm_state =
    (Raise (UnauthorizedError "role not allowed"), DemoTools.warm_state).
Proof.
  split; [reflexivity |].
  exact (proj1 (ToolExecFacts.execute_checks_before_cache string string (fun u => u)
    DemoTools.check_authorization DemoTools.get_consent DemoTools.validate_parameters
    DemoTools.generate_cache_key DemoTools.mcp_call_tool DemoTools.verify_result
    DemoTools.spec_cacheable DemoTools.params "financial_agent" DemoTools.warm_state) eq_refl).
Defined.

(** The authorised caller is served from the cache, without a tool call. *)
Example execute_cache_hit :
  DemoTools.run "clinical_agent" DemoTools.warm_state =
    (Ok DemoTools.cached_result,
     mkState (result_cache DemoTools.warm_state) [CacheGet "fetch_record"] 0).
Proof. reflexivity. Qed.

End ToolRuns.

(** * Further properties of the code *)

Module BudgetMore.
Import Budget.

(** X1: a category the allocation table does not list has allocation 0, so
    every positive request for it is answered OVER_ALLOCATION, whatever the
    usage. *)
Theorem check_budget_unknown_category : forall m c r,
  (forall v, ~ In (c, v) (allocations m)) -> r > 0 ->
  check_budget m c r = {| status := "OVER_ALLOCATION"; action := "TRIGGER_COMPACTION" |}.
Proof.
  intros m c r Hnot Hr.
  assert (Hget : dict_get c (allocations m) 0 = 0).
  { induction (allocations m) as [| [k v] rest IH]; [reflexivity |].
    cbn. destruct (String.eqb_spec k c) as [-> | Hne].
    - exfalso. apply (Hnot v). left. reflexivity.
    - apply IH. intros v' Hin. apply (Hnot v'). right. exact Hin. }
  unfold check_budget. rewrite Hget.
  replace (r >? 0) with true by (symmetry; apply Z.gtb_lt; lia). reflexivity.
Qed.

(** X2: an APPROVED answer means the request fits the category's
    allocation and usage plus request stays within 80% of the total. *)
Theorem check_budget_approved_sound : forall m c r,
  status (check_budget m c r) = "APPROVED" ->
  r <= dict_get c (allocations m) 0 /\ 10 * (used m + r) <= 8 * total_budget m.
Proof.
  intros m c r H. unfold check_budget in H.
  destruct (r >? dict_get c (allocations m) 0) eqn:E1; [discriminate H |].
  destruct (10 * (used m + r) >? 8 * total_budget m) eqn:E2; [discriminate H |].
  rewrite Z.gtb_ltb, Z.ltb_ge in E1, E2. lia.
Qed.

(** X3: usage never becomes negative: starting from a non-negative usage,
    any sequence of checks, releases (of any amount) and allocations of
    non-negative amounts ends with a non-negative usage. *)
Theorem run_used_nonneg : forall ops m,
  0 <= used m ->
  Forall (fun o => match o with Allocate _ a => 0 <= a | _ => True end) ops ->
  0 <= used (fst (run m ops)).
Proof.
  induction ops as [| o rest IH]; intros m Hm Hops; [exact Hm |].
  inversion Hops as [| ? ? Ho Hrest]; subst.
  destruct o as [c r | c a | c a]; cbn [run].
  - destruct (run m rest) as [m' rs] eqn:E. cbn.
    change m' with (fst (m', rs)). rewrite <- E. apply IH; assumption.
  - apply IH; [cbn; lia | exact Hrest].
  - apply IH; [cbn; lia | exact Hrest].
Qed.

(** X4: releasing what was just allocated restores the manager, when usage
    and amount are non-negative; releasing more than is used clamps usage at 0. *)
Theorem allocate_release_roundtrip : forall m c c' a,
  0 <= used m -> 0 <= a ->
  release (allocate m c a) c' a = m /\
  (forall b, used m <= b -> used (release m c' b) = 0).
Proof.
  intros [t al u] c c' a Hu Ha; cbn in *. split.
  - unfold release, allocate; cbn. f_equal. lia.
  - intros b Hb. cbn. lia.
Qed.

End BudgetMore.

Module ApprovalFacts.
Import Tier Approval.

Section Policy.
Variable get_timeout : HITLTier -> Z.
Variable get_required_approver : RawAction -> string.
Variable generate_summary : ActionProposal -> string.

Local Abbreviation requirements := (get_approval_requirements get_timeout get_required_approver).
Local Abbreviation ui := (build_approval_ui generate_summary).
Local Abbreviation request := (request_approval generate_summary).


(** The rows of the table that end in tier 1 or tier 2. *)
Local Abbreviation low_row := (fun a : RawAction =>
  (String.eqb (raw_impact a) "LOW" && String.eqb (raw_reversibility a) "FULL") ||
  (String.eqb (raw_impact a) "MEDIUM" &&
     (String.eqb (raw_reversibility a) "FULL" || String.eqb (raw_reversibility a) "PARTIAL"))).

Local Abbreviation high_or_phi := (fun a : RawAction =>
  String.eqb (raw_impact a) "HIGH" || String.eqb (raw_sensitivity a) "PHI").

Lemma classify_raw_requirements : forall a : RawAction,
  can_modify (requirements a (classify_raw a)) = negb (low_row a) && high_or_phi a /\
  emergency_override (requirements a (classify_raw a)) = low_row a || high_or_phi a /\
  should_request_approval (classify_raw a) = negb (low_row a).
Proof.
  intros a. unfold classify_raw, get_approval_requirements. cbn [existsb can_modify emergency_override].
  destruct (String.eqb (raw_impact a) "LOW"), (String.eqb (raw_impact a) "MEDIUM"),
    (String.eqb (raw_impact a) "HIGH"), (String.eqb (raw_reversibility a) "FULL"),
    (String.eqb (raw_reversibility a) "PARTIAL"), (String.eqb (raw_sensitivity a) "PHI");
    repeat split.
Qed.

Lemma modify_button_iff : forall (p : ActionProposal) (req : ApprovalRequirements),
  (exists b, In (Some b) (buttons (ui p req)) /\ button_action b = "MODIFY") <->
  can_modify req = true.
Proof.
  intros p req. split.
  - intros [b [Hin Hb]]. cbn in Hin.
    destruct Hin as [Hx | [Hx | [Hx | [Hx | []]]]];
      try (injection Hx as <-; cbn in Hb; discriminate Hb).
    destruct (can_modify req); [reflexivity | discriminate Hx].
  - intros Hm. exists (mkButton "Modify" "MODIFY" "warning"). split; [| reflexivity].
    right; right; left. cbn. rewrite Hm. reflexivity.
Qed.

(** X6: for an action classified from its assessed impact, reversibility and
    data sensitivity, modification is allowed exactly when the action falls
    in neither the (LOW, FULL) row nor the (MEDIUM, FULL or PARTIAL) row and
    has HIGH impact or PHI data; the emergency override is withheld exactly
    from the remaining (tier-4) actions; and every action without override
    needs approval. So a LOW-impact irreversible action on PHI may be
    modified. *)
Theorem approval_requirements_classified : forall a : RawAction,
  can_modify (requirements a (classify_raw a)) = negb (low_row a) && high_or_phi a /\
  emergency_override (requirements a (classify_raw a)) = low_row a || high_or_phi a /\
  (emergency_override (requirements a (classify_raw a)) = false ->
   should_request_approval (classify_raw a) = true).
Proof.
  intros a. destruct (classify_raw_requirements a) as [Hm [Ho Hs]].
  split; [exact Hm | split; [exact Ho |]].
  rewrite Ho, Hs. destruct (low_row a); [discriminate | reflexivity].
Qed.

(** X7: the approval screen of a classified action offers Approve, Deny and
    Explain More always, Modify exactly when the action is outside the
    (LOW, FULL) and (MEDIUM, FULL or PARTIAL) rows and has HIGH impact or
    PHI data, times out after the tier's timeout, and lists one evidence
    line per passed verification check. *)
Theorem approval_ui_for_action : forall (a : RawAction) (p : ActionProposal),
  let screen := ui p (requirements a (classify_raw a)) in
  (forall act, In act ["APPROVE"; "DENY"; "EXPLAIN"] ->
     exists b, In (Some b) (buttons screen) /\ button_action b = act) /\
  ((exists b, In (Some b) (buttons screen) /\ button_action b = "MODIFY") <->
     negb (low_row a) && high_or_phi a = true) /\
  ui_timeout screen = get_timeout (classify_raw a) /\
  length (evidence screen) = length (filter vc_passed (verification_checks p)).
Proof.
  intros a p screen. subst screen. split; [| split; [| split]].
  - intros act Hin. cbn in Hin.
    destruct Hin as [<- | [<- | [<- | []]]].
    + eexists; split; [left; reflexivity | reflexivity].
    + eexists; split; [right; left; reflexivity | reflexivity].
    + eexists; split; [right; right; right; left; reflexivity | reflexivity].
  - rewrite modify_button_iff. rewrite (proj1 (classify_raw_requirements a)). reflexivity.
  - reflexivity.
  - cbn. apply length_map.
Qed.

(** X8: answers asking for an explanation re-present the same screen and
    show an explanation each time; the outcome is that of the first other
    answer. *)
Theorem request_approval_explain : forall p r xs rest,
  Forall (fun u => ur_action u = "EXPLAIN") xs ->
  request p r (xs ++ rest) =
    (fst (request p r rest),
     flat_map (fun _ => [Presented (ui p r); Explained]) xs ++ snd (request p r rest)).
Proof.
  intros p r xs rest Hxs. induction Hxs as [| u xs Hu _ IH]; cbn [app flat_map].
  - destruct (request p r rest); reflexivity.
  - cbn [request_approval]. rewrite Hu. cbn -[request_approval build_approval_ui].
    rewrite IH. reflexivity.
Qed.

(** X9: an answer other than APPROVE, DENY, MODIFY and EXPLAIN falls off
    the end of the if/elif chain: [request_approval] returns [None] after a
    single presentation, whatever answers follow. *)
Theorem request_approval_unknown_action : forall p r u rest,
  ~ In (ur_action u) ["APPROVE"; "DENY"; "MODIFY"; "EXPLAIN"] ->
  request p r (u :: rest) = (ReturnedNone, [Presented (ui p r)]).
Proof.
  intros p r u rest Hnot. cbn [request_approval].
  destruct (String.eqb_spec (ur_action u) "APPROVE") as [H|_];
    [exfalso; apply Hnot; rewrite H; left; reflexivity |].
  destruct (String.eqb_spec (ur_action u) "DENY") as [H|_];
    [exfalso; apply Hnot; rewrite H; right; left; reflexivity |].
  destruct (String.eqb_spec (ur_action u) "MODIFY") as [H|_];
    [exfalso; apply Hnot; rewrite H; right; right; left; reflexivity |].
  destruct (String.eqb_spec (ur_action u) "EXPLAIN") as [H|_];
    [exfalso; apply Hnot; rewrite H; right; right; right; left; reflexivity |].
  reflexivity.
Qed.

(** X10: [request_approval] does not consult [can_modify]: with
    requirements that forbid modification the screen has no Modify button,
    yet a MODIFY answer is returned as a MODIFY decision. *)
Theorem request_approval_modify_unchecked : forall p r u rest,
  can_modify r = false -> ur_action u = "MODIFY" ->
  ~ (exists b, In (Some b) (buttons (ui p r)) /\ button_action b = "MODIFY") /\
  fst (request p r (u :: rest)) =
    Responded {| decision := "MODIFY"; reason := None;
                 modifications := Some (ur_modifications u); user := ur_user u |}.
Proof.
  intros p r u rest Hr Hu. split.
  - intros [b [Hin Hb]]. cbn in Hin. rewrite Hr in Hin.
    destruct Hin as [Hx | [Hx | [Hx | [Hx | []]]]];
      try discriminate Hx; injection Hx as <-; cbn in Hb; discriminate Hb.
  - cbn [request_approval]. rewrite Hu. reflexivity.
Qed.

End Policy.

End ApprovalFacts.

Module RegistryFacts.
Import ToolExec Registry.

Section Reg.
Variable validate_spec : ToolSpec -> Py unit.

Local Abbreviation register := (register_tool validate_spec).

(** X11: a tool that registers successfully can be fetched at once under
    its id, and the backend holds it. *)
Theorem register_then_get : forall spec s s',
  register spec s = (Ok tt, s') ->
  get_tool (spec_id spec) s' = (Ok spec, s') /\ find (spec_id spec) (backend s') = Some spec.
Proof.
  intros spec s s' H. unfold register_tool in H.
  destruct (validate_spec spec) as [u | e]; [| discriminate H].
  destruct (find (spec_id spec) (backend s)); [discriminate H |].
  injection H as <-. unfold get_tool. cbn. rewrite String.eqb_refl. split; reflexivity.
Qed.

(** X12: registering an id the backend already holds raises
    [ToolRegistryError] and changes neither the backend nor the cache: the
    earlier registration is kept. *)
Theorem register_duplicate_rejected : forall spec s old,
  validate_spec spec = Ok tt ->
  find (spec_id spec) (backend s) = Some old ->
  register spec s =
    (Raise (OtherException "ToolRegistryError" ("Tool " ++ spec_id spec ++ " already registered")), s).
Proof.
  intros spec s old Hv Hf. unfold register_tool. rewrite Hv, Hf. reflexivity.
Qed.

End Reg.

(** X13: a fetched tool is served from the cache from then on: whatever
    the backend holds afterwards (an update, or nothing), [get_tool] returns
    the fetched specification and changes nothing. *)
Theorem get_tool_cache_shadows_backend : forall id s t s',
  get_tool id s = (Ok t, s') ->
  forall b, get_tool id {| backend := b; cache := cache s' |} =
              (Ok t, {| backend := b; cache := cache s' |}).
Proof.
  intros id s t s' H b. unfold get_tool in *.
  destruct (find id (cache s)) as [c |] eqn:Ec.
  - injection H as <- <-. cbn. rewrite Ec. reflexivity.
  - destruct (find id (backend s)) as [c |]; [| discriminate H].
    injection H as <- <-. cbn. rewrite String.eqb_refl. reflexivity.
Qed.

Section Ranking.
Variable k : ToolSpec -> Q.

Local Abbreviation R := (fun a b : ToolSpec => (k b <= k a)%Q).

Lemma insert_desc_perm : forall t l, Permutation (insert_desc k t l) (t :: l).
Proof.
  intros t l. induction l as [| u rest IH]; cbn; [reflexivity |].
  destruct (negb (Qle_bool (k t) (k u))); [reflexivity |].
  rewrite IH. apply perm_swap.
Qed.

Lemma insert_desc_sorted : forall t l, Sorted R l -> Sorted R (insert_desc k t l).
Proof.
  intros t l. induction l as [| u rest IH]; intros H; cbn.
  - repeat constructor.
  - destruct (negb (Qle_bool (k t) (k u))) eqn:E.
    + apply negb_true_iff in E.
      assert (Hlt : (k u < k t)%Q).
      { apply Qnot_le_lt. intros Hle. apply Qle_bool_iff in Hle. congruence. }
      constructor; [exact H | constructor; apply Qlt_le_weak; exact Hlt].
    + apply negb_false_iff, Qle_bool_iff in E.
      apply Sorted_inv in H as [Hs Hd]. constructor; [apply IH, Hs |].
      destruct rest as [| v rest']; cbn; [constructor; exact E |].
      destruct (negb (Qle_bool (k t) (k v))); constructor; [exact E |].
      inversion Hd; assumption.
Qed.

Lemma fold_insert_desc : forall l acc,
  Sorted R acc ->
  Sorted R (fold_left (fun acc t => insert_desc k t acc) l acc) /\
  Permutation (fold_left (fun acc t => insert_desc k t acc) l acc) (l ++ acc).
Proof.
  induction l as [| t l IH]; intros acc Hacc; cbn; [split; [exact Hacc | reflexivity] |].
  destruct (IH (insert_desc k t acc) (insert_desc_sorted t acc Hacc)) as [Hs Hp].
  split; [exact Hs |]. rewrite Hp, insert_desc_perm. symmetry. apply Permutation_middle.
Qed.

Lemma strongly_sorted_app : forall (l1 l2 : list ToolSpec),
  StronglySorted R (l1 ++ l2) ->
  StronglySorted R l1 /\ (forall a b, In a l1 -> In b l2 -> (k b <= k a)%Q).
Proof.
  induction l1 as [| x l1 IH]; intros l2 H; cbn in *.
  - split; [constructor | intros a b []].
  - apply StronglySorted_inv in H as [Hs Hall]. destruct (IH l2 Hs) as [Hs1 Hcross].
    rewrite Forall_forall in Hall. split.
    + constructor; [exact Hs1 |]. apply Forall_forall. intros y Hy. apply Hall, in_or_app. left; exact Hy.
    + intros a b [<- | Ha] Hb; [apply Hall, in_or_app; right; exact Hb | apply Hcross; assumption].
Qed.

End Ranking.

Section Discovery.
Variable Task : Type.
Variable task_domain : Task -> string.
Variable task_type : Task -> string.
Variable RiskTier : Type.
Variable extract_capabilities : Task -> list string.
Variable search_tools : list string -> string -> RiskTier -> list ToolSpec.
Variable get_success_rate : string -> string -> Q.
Variable calculate_confidence : ToolSpec -> Task -> Q.
Variable find_alternatives : ToolSpec -> list string.
Variable get_stats : string -> string.

Local Abbreviation discover := (discover_tools_for_task Task task_domain task_type RiskTier
  extract_capabilities search_tools get_success_rate calculate_confidence find_alternatives get_stats).

(** X14: discovery recommends min(5, #candidates) of the candidate tools,
    in non-increasing order of success rate for the task's type, and no
    candidate left out has a higher success rate than a recommended one. *)
Theorem discover_top_ranked : forall task tier,
  let candidates := search_tools (extract_capabilities task) (task_domain task) tier in
  let rate := fun t => get_success_rate (spec_id t) (task_type task) in
  let recommended := map rec_tool (discover task tier) in
  length recommended = Nat.min 5 (length candidates) /\
  Sorted (fun a b => (rate b <= rate a)%Q) recommended /\
  exists left_out, Permutation candidates (recommended ++ left_out) /\
    (forall t u, In t recommended -> In u left_out -> (rate u <= rate t)%Q).
Proof.
  intros task tier candidates rate recommended.
  set (ranked := rank_by_success_rate get_success_rate candidates (task_type task)).
  assert (Hrec : recommended = firstn 5 ranked).
  { subst recommended. unfold discover_tools_for_task. rewrite map_map. cbn. apply map_id. }
  destruct (fold_insert_desc rate candidates [] (Sorted_nil _)) as [Hs Hp].
  rewrite app_nil_r in Hp.
  change (fold_left (fun acc t => insert_desc rate t acc) candidates []) with ranked in Hs, Hp.
  assert (Hss : StronglySorted (fun a b => (rate b <= rate a)%Q) (firstn 5 ranked ++ skipn 5 ranked)).
  { rewrite firstn_skipn. apply Sorted_StronglySorted; [| exact Hs].
    intros x y z Hxy Hyz. eapply Qle_trans; eassumption. }
  destruct (strongly_sorted_app rate _ _ Hss) as [Hs1 Hcross].
  rewrite Hrec. split; [| split].
  - rewrite length_firstn, (Permutation_length Hp). reflexivity.
  - apply StronglySorted_Sorted, Hs1.
  - exists (skipn 5 ranked). split; [| exact Hcross].
    rewrite firstn_skipn. symmetry. exact Hp.
Qed.

End Discovery.

End RegistryFacts.

Module ToolVerifierFacts.
Import ToolExec ToolVerifier.

Section Verifier.
Variable output_schema : ToolSpec -> string.
Variable required_fields : ToolSpec -> list string.
Variable validate_schema : string -> string -> ValidationCheck.
Variable check_completeness : string -> list string -> ValidationCheck.
Variable check_safety : string -> ToolSpec -> ValidationCheck.
Variable repr_checks : list ValidationCheck -> string.

Local Abbreviation verify := (verify_result output_schema required_fields validate_schema
  check_completeness check_safety repr_checks).

(** X15: [verify_result] returns a SUCCESS result carrying the tool's data
    and id exactly when the schema, completeness and safety checks all
    pass; otherwise it raises [ToolVerificationError]. *)
Theorem verify_result_all_or_raise : forall d spec,
  let checks := [validate_schema d (output_schema spec);
                 check_completeness d (required_fields spec); check_safety d spec] in
  (forallb check_passed checks = true ->
   verify d spec = Ok {| status := "SUCCESS"; data := Some d; error := None; tool_id := spec_id spec |}) /\
  (forallb check_passed checks = false ->
   exists msg, verify d spec = Raise (OtherException "ToolVerificationError" msg)).
Proof.
  intros d spec checks. unfold verify_result. fold checks.
  split; intros H; rewrite H; [reflexivity | eexists; reflexivity].
Qed.

End Verifier.

End ToolVerifierFacts.

Module ToolExecMore.
Import ToolExec.

Section Executor.
Variable User : Type.
Variable Context : Type.
Variable context_user : Context -> User.
Variable check_authorization : User -> ToolSpec -> AuthResult.
Variable get_consent : User -> ToolSpec -> list (string * string) -> bool.
Variable validate_parameters : list (string * string) -> list string -> Py (list (string * string)).
Variable generate_cache_key : ToolSpec -> list (string * string) -> string.
Variable mcp_call_tool : string -> list (string * string) -> Z -> string -> Py string.

Section Verify.
Variable verify_result : string -> ToolSpec -> Py ToolResult.

Local Abbreviation exec := (execute User Context context_user check_authorization get_consent
  validate_parameters generate_cache_key mcp_call_tool verify_result).

(** X16: a verified result of a cacheable tool is stored under its cache
    key with the tool's [cache_ttl]. The same call made again at a time [t]
    before the entry expires is answered from the cache: one cache read, no
    second tool call, no second write. Made once the entry has expired, it
    misses the cache, calls the tool again and stores the new result for
    another [cache_ttl]. *)
Theorem execute_caches_result : forall spec params context st vp d r t,
  let auth := check_authorization (context_user context) spec in
  let key := generate_cache_key spec vp in
  authorized auth = true ->
  requires_consent spec && negb (get_consent (context_user context) spec params) = false ->
  validate_parameters params (parameter_schema spec) = Ok vp ->
  cached_value (now st) key (result_cache st) = None ->
  mcp_call_tool (mcp_endpoint spec) vp (sla_timeout spec) (credentials auth) = Ok d ->
  verify_result d spec = Ok r ->
  cacheable spec = true ->
  let st1 := {| result_cache := (key, mkCacheEntry r (now st + cache_ttl spec)) :: result_cache st;
                events := events st ++ [CacheGet key; McpCall (mcp_endpoint spec); CacheSet key];
                now := now st |} in
  let later := {| result_cache := result_cache st1; events := events st1; now := t |} in
  exec spec params context st = (Ok r, st1) /\
  (t < now st + cache_ttl spec ->
   exec spec params context later =
     (Ok r, {| result_cache := result_cache st1; events := events st1 ++ [CacheGet key];
               now := t |})) /\
  (now st + cache_ttl spec <= t ->
   exec spec params context later =
     (Ok r, {| result_cache := (key, mkCacheEntry r (t + cache_ttl spec)) :: result_cache st1;
               events := events st1 ++ [CacheGet key; McpCall (mcp_endpoint spec); CacheSet key];
               now := t |})).
Proof.
  intros spec params context st vp d r t auth key Ha Hc Hv Hl Hm Hr Hca st1 later.
  assert (Hk : forall t', cached_value t' key
      ((key, mkCacheEntry r (now st + cache_ttl spec)) :: result_cache st) =
      if Z.ltb t' (now st + cache_ttl spec) then Some r else None).
  { intros t'. unfold cached_value. cbn [lookup]. rewrite String.eqb_refl. reflexivity. }
  subst st1 later.
  unfold execute, bind, lift, cache_get, catch_mcp, call_tool, cache_set, ret.
  fold auth. rewrite Ha, Hc, Hv. cbn -[cached_value]. fold key. rewrite Hl, Hm, Hr, Hca, !Hk.
  split; [| split].
  - cbn. rewrite <- !app_assoc. reflexivity.
  - intros Ht. destruct (Z.ltb_spec t (now st + cache_ttl spec)); [| lia].
    cbn. rewrite <- !app_assoc. reflexivity.
  - intros Ht. destruct (Z.ltb_spec t (now st + cache_ttl spec)); [lia |].
    cbn. rewrite <- !app_assoc. reflexivity.
Qed.

(** X17: a tool that is not cacheable never writes the result cache:
    whatever the outcome of [execute], the cache is unchanged and the calls
    it adds to the log contain no cache write. *)
Theorem execute_uncacheable_no_write : forall spec params context st,
  cacheable spec = false ->
  result_cache (snd (exec spec params context st)) = result_cache st /\
  exists added, events (snd (exec spec params context st)) = events st ++ added /\
    forall k, ~ In (CacheSet k) added.
Proof.
  intros spec params context st Hca.
  unfold execute, bind, lift, cache_get, catch_mcp, call_tool, cache_set, ret, raise.
  destruct (negb (authorized (check_authorization (context_user context) spec)));
    [cbn; split; [reflexivity | exists []; split; [symmetry; apply app_nil_r | intros k []]] |].
  destruct (requires_consent spec && negb (get_consent (context_user context) spec params));
    [cbn; split; [reflexivity | exists []; split; [symmetry; apply app_nil_r | intros k []]] |].
  destruct (validate_parameters params (parameter_schema spec)) as [vp | e];
    [| cbn; split; [reflexivity | exists []; split; [symmetry; apply app_nil_r | intros k []]]].
  cbn -[cached_value]. destruct (cached_value (now st) (generate_cache_key spec vp) (result_cache st)).
  { cbn. split; [reflexivity | eexists; split; [reflexivity |]].
    intros k [H | []]; discriminate H. }
  destruct (mcp_call_tool (mcp_endpoint spec) vp (sla_timeout spec)
              (credentials (check_authorization (context_user context) spec))) as [d | e].
  - destruct (verify_result d spec) as [r | e]; [rewrite Hca |];
      [| destruct e]; cbn; (split; [reflexivity |]);
      (eexists; split; [rewrite <- app_assoc; reflexivity |]);
      intros k Hin; cbn in Hin; destruct Hin as [H | [H | []]]; discriminate H.
  - destruct e; cbn; (split; [reflexivity |]);
      (eexists; split; [rewrite <- app_assoc; reflexivity |]);
      intros k Hin; cbn in Hin; destruct Hin as [H | [H | []]]; discriminate H.
Qed.

(** X18: a tool call that raises [MCPError] is turned into a FAILED result
    carrying the error message; nothing is cached. *)
Theorem execute_mcp_error_failed : forall spec params context st vp e,
  let auth := check_authorization (context_user context) spec in
  let key := generate_cache_key spec vp in
  authorized auth = true ->
  requires_consent spec && negb (get_consent (context_user context) spec params) = false ->
  validate_parameters params (parameter_schema spec) = Ok vp ->
  cached_value (now st) key (result_cache st) = None ->
  mcp_call_tool (mcp_endpoint spec) vp (sla_timeout spec) (credentials auth) = Raise (MCPError e) ->
  exec spec params context st =
    (Ok {| status := "FAILED"; data := None; error := Some e; tool_id := spec_id spec |},
     {| result_cache := result_cache st;
        events := events st ++ [CacheGet key; McpCall (mcp_endpoint spec)]; now := now st |}).
Proof.
  intros spec params context st vp e auth key Ha Hc Hv Hl Hm.
  unfold execute, bind, lift, cache_get, catch_mcp, call_tool, cache_set, ret.
  fold auth. rewrite Ha, Hc, Hv. cbn -[cached_value]. fold key. rewrite Hl, Hm.
  cbn. rewrite <- app_assoc. reflexivity.
Qed.

End Verify.

Variable output_schema : ToolSpec -> string.
Variable required_fields : ToolSpec -> list string.
Variable validate_schema : string -> string -> ToolVerifier.ValidationCheck.
Variable check_completeness : string -> list string -> ToolVerifier.ValidationCheck.
Variable check_safety : string -> ToolSpec -> ToolVerifier.ValidationCheck.
Variable repr_checks : list ToolVerifier.ValidationCheck -> string.

Local Abbreviation exec_verified := (execute User Context context_user check_authorization get_consent
  validate_parameters generate_cache_key mcp_call_tool
  (ToolVerifier.verify_result output_schema required_fields validate_schema
     check_completeness check_safety repr_checks)).

(** X19: with [ToolVerifier.verify_result] as the executor's verifier, a
    tool output that fails one of the checks escapes [execute] as
    [ToolVerificationError] (the executor catches only [MCPError]), after
    the tool call, and is not cached. *)
Theorem execute_verification_error_escapes : forall spec params context st vp d,
  let auth := check_authorization (context_user context) spec in
  let key := generate_cache_key spec vp in
  authorized auth = true ->
  requires_consent spec && negb (get_consent (context_user context) spec params) = false ->
  validate_parameters params (parameter_schema spec) = Ok vp ->
  cached_value (now st) key (result_cache st) = None ->
  mcp_call_tool (mcp_endpoint spec) vp (sla_timeout spec) (credentials auth) = Ok d ->
  forallb ToolVerifier.check_passed
    [validate_schema d (output_schema spec); check_completeness d (required_fields spec);
     check_safety d spec] = false ->
  exists msg, exec_verified spec params context st =
    (Raise (OtherException "ToolVerificationError" msg),
     {| result_cache := result_cache st;
        events := events st ++ [CacheGet key; McpCall (mcp_endpoint spec)]; now := now st |}).
Proof.
  intros spec params context st vp d auth key Ha Hc Hv Hl Hm Hf.
  unfold execute, bind, lift, cache_get, catch_mcp, call_tool, cache_set, ret.
  fold auth. rewrite Ha, Hc, Hv. cbn -[cached_value ToolVerifier.verify_result]. fold key. rewrite Hl, Hm.
  unfold ToolVerifier.verify_result. rewrite Hf. cbn.
  eexists. rewrite <- app_assoc. reflexivity.
Qed.

End Executor.

End ToolExecMore.

Module MCPFacts.
Import MCP.

Section Client.
Variable prepare_credentials : string -> string.
Variable generated_trace_id : string.
Variable transport_send : MCPRequest -> Z -> Py MCPResponse.
Variable validate_response : MCPResponse -> Py unit.

Local Abbreviation call := (call_tool prepare_credentials generated_trace_id transport_send validate_response).


End Client.

Section Server.
Variable Ctx : Type.
Variable verify_auth : string -> Ctx -> AuthCheck.
Variable check_authorization : string -> string -> bool.
Variable validate_input : list (string * string) -> bool * list string.
Variable rate_exceeded : string -> bool.
Variable execute : list (string * string) -> Ctx -> Py string.
Variable validate_output : string -> bool.

Local Abbreviation handle := (handle_request Ctx verify_auth check_authorization validate_input
  rate_exceeded execute validate_output).


(** X22: when the request passes authentication, authorisation, input
    validation and the rate limit, and the tool's output passes output
    validation, the audit entry is completed as SUCCESS with the result and
    then again as FAILURE, and the caller gets the [AttributeError] of
    [MCPResponse.success], not the result. *)
Theorem handle_request_success_checked : forall request context log res,
  let auth := verify_auth (credentials request) context in
  authenticated auth = true ->
  check_authorization (auth_user auth) (tool_endpoint request) = true ->
  fst (validate_input (parameters request)) = true ->
  rate_exceeded (auth_user auth) = false ->
  execute (parameters request) context = Ok res ->
  validate_output res = true ->
  handle request context log =
    (Raise (no_attribute "MCPResponse" "success"),
     log ++ [AuditBegin (length log); Executed; AuditComplete (length log) "SUCCESS" res;
             AuditComplete (length log) "FAILURE"
               "type object 'MCPResponse' has no attribute 'success'"]).
Proof.
  intros request context log res auth Ha Hz Hv Hr He Ho.
  unfold handle_request. fold auth. rewrite Ha, Hz, Hv, Hr, He. cbn [negb py_bind].
  rewrite Ho. cbn. rewrite <- !app_assoc. reflexivity.
Qed.

End Server.

Section EHR.
Variable Ctx : Type.
Variable PatientRecord : Type.
Variable ehr_get_patient : string -> string -> Py PatientRecord.
Variable transform_patient_data : PatientRecord -> string.
Variable get_lab_results : list (string * string) -> Ctx -> Py string.

Local Abbreviation ehr := (ehr_execute Ctx PatientRecord ehr_get_patient transform_patient_data get_lab_results).

(** X23: a patient-data fetch without [patient_id] raises [KeyError]
    whatever the EHR would answer (the EHR is never called); with it and
    without [data_type], the EHR is asked for the "summary" data of that
    patient and its answer is transformed. *)
Theorem ehr_fetch_parameters : forall params context,
  get "operation" params = Some "fetch_patient_data" ->
  (get "patient_id" params = None ->
   forall other_ehr : string -> string -> Py PatientRecord,
     ehr params context = Raise (OtherException "KeyError" "'patient_id'") /\
     ehr_execute Ctx PatientRecord other_ehr transform_patient_data get_lab_results params context =
       Raise (OtherException "KeyError" "'patient_id'")) /\
  (forall pid, get "patient_id" params = Some pid -> get "data_type" params = None ->
     ehr params context =
       py_bind (ehr_get_patient pid "summary") (fun d => Ok (transform_patient_data d))).
Proof.
  intros params context Hop. unfold ehr_execute. rewrite Hop. cbn [String.eqb Ascii.eqb Bool.eqb andb].
  unfold fetch_patient_data. split.
  - intros Hp other. rewrite Hp. split; reflexivity.
  - intros pid Hp Hd. rewrite Hp, Hd. reflexivity.
Qed.

Variable verify_auth : string -> Ctx -> AuthCheck.
Variable check_authorization : string -> string -> bool.
Variable validate_input : list (string * string) -> bool * list string.
Variable rate_exceeded : string -> bool.
Variable validate_output : string -> bool.

Local Abbreviation ehr_handle := (handle_request Ctx verify_auth check_authorization validate_input
  rate_exceeded ehr validate_output).

(** X24: the EHR server run through the request pipeline: an admitted
    request with no operation, or an operation other than the two it
    knows, is audited as a FAILURE "Unknown operation: ..." and the
    [MCPServerError] is re-raised to the caller. *)
Theorem ehr_unknown_operation_audited : forall request context log,
  let auth := verify_auth (credentials request) context in
  authenticated auth = true ->
  check_authorization (auth_user auth) (tool_endpoint request) = true ->
  fst (validate_input (parameters request)) = true ->
  rate_exceeded (auth_user auth) = false ->
  get "operation" (parameters request) <> Some "fetch_patient_data" ->
  get "operation" (parameters request) <> Some "get_lab_results" ->
  let shown := match get "operation" (parameters request) with Some op => op | None => "None" end in
  ehr_handle request context log =
    (Raise (OtherException "MCPServerError" ("Unknown operation: " ++ shown)),
     log ++ [AuditBegin (length log); Executed;
             AuditComplete (length log) "FAILURE" ("Unknown operation: " ++ shown)]).
Proof.
  intros request context log auth Ha Hz Hv Hr Hf Hl shown.
  unfold handle_request. fold auth. rewrite Ha, Hz, Hv, Hr. cbn [negb].
  assert (He : ehr (parameters request) context =
               Raise (OtherException "MCPServerError" ("Unknown operation: " ++ shown))).
  { unfold ehr_execute, shown.
    destruct (get "operation" (parameters request)) as [op |]; [| reflexivity].
    destruct (String.eqb_spec op "fetch_patient_data") as [-> | _]; [congruence |].
    destruct (String.eqb_spec op "get_lab_results") as [-> | _]; [congruence | reflexivity]. }
  rewrite He. cbn. rewrite <- app_assoc. reflexivity.
Qed.

End EHR.

End MCPFacts.

Module AgentMore.
Import Agent.

Section Executor.
Variable Tool : Type.
Variable get_tool : string -> Py Tool.
Variable tool_execute : Tool -> list (string * string) -> ExecutionContext -> Py ToolResult.
Variable execute_parallel : PlanStep -> ExecutionContext -> Py StepResult.
Variable aggregate_outputs : list StepResult -> string.

Local Abbreviation exec_steps := (execute_steps get_tool tool_execute execute_parallel aggregate_outputs).
Local Abbreviation exec_plan := (execute_plan get_tool tool_execute execute_parallel aggregate_outputs).
Local Abbreviation continues := (steps_continue get_tool tool_execute execute_parallel).

(** X25: when no step of the plan is a critical failure, [execute_plan]
    runs every step and returns SUCCESS with one result per step, in order,
    their aggregated output, and the context holding every result. *)
Theorem execute_plan_success : forall plan ctx results ctx',
  continues (steps plan) [] ctx results ctx' ->
  exec_plan plan ctx =
    Ok ({| er_steps := results; er_status := "SUCCESS"; failure_reason := None;
           output := Some (aggregate_outputs results) |}, ctx') /\
  length results = length (steps plan) /\
  step_results ctx' = step_results ctx ++ results.
Proof.
  intros plan ctx results ctx' H. split; [| split].
  - unfold execute_plan. rewrite <- (app_nil_r (steps plan)).
    rewrite (AgentFacts.execute_steps_prefix _ _ _ _ _ _ _ _ _ _ _ H). reflexivity.
  - rewrite (AgentFacts.steps_continue_length _ _ _ _ _ _ _ _ _ H). reflexivity.
  - assert (Hgen : forall pre acc c res c', continues pre acc c res c' ->
              exists added, res = acc ++ added /\ step_results c' = step_results c ++ added).
    { intros pre acc c res c' Hc.
      induction Hc as [res c | step rest res c sr res_end c_end _ _ _ IH].
      - exists []. rewrite !app_nil_r. split; reflexivity.
      - destruct IH as [added [Hres Hctx]]. exists (sr :: added).
        unfold add_step_result in Hctx. cbn [step_results] in Hctx.
        rewrite Hres, Hctx, <- !app_assoc. split; reflexivity. }
    destruct (Hgen _ _ _ _ _ H) as [added [Hres Hctx]]. cbn in Hres. subst added. exact Hctx.
Qed.

(** X26: a sequential step whose tool raises [ToolExecutionError] is
    recorded as a FAILED step result carrying the message; when the step is
    not critical the plan goes on with its next step. *)
Theorem noncritical_tool_error_continues : forall step rest results ctx tool e,
  parallel_safe step = false ->
  critical step = false ->
  get_tool (tool_id step) = Ok tool ->
  tool_execute tool (parameters step) ctx = Raise (ToolExecutionError e) ->
  let sr := {| sr_step := step; sr_status := "FAILED"; sr_output := None;
               sr_error := Some e; failure := true; duration := None |} in
  exec_steps (step :: rest) results ctx = exec_steps rest (results ++ [sr]) (add_step_result ctx sr).
Proof.
  intros step rest results ctx tool e Hp Hc Hg Ht sr.
  cbn [execute_steps]. unfold execute_step. rewrite Hp. unfold execute_sequential.
  rewrite Hg. cbn [py_bind]. rewrite Ht. cbn [py_bind failure]. rewrite Hc. reflexivity.
Qed.

End Executor.

Section Orchestrator.
Variable Tool : Type.
Variable get_tool : string -> Py Tool.
Variable tool_execute : Tool -> list (string * string) -> ExecutionContext -> Py ToolResult.
Variable execute_parallel : PlanStep -> ExecutionContext -> Py StepResult.
Variable aggregate_outputs : list StepResult -> string.
Variable check_policy_compliance : ExecutionResult -> string -> list string -> Check.t.
Variable check_completeness : ExecutionResult -> list string -> Check.t.
Variable check_consistency : ExecutionResult -> list string -> Check.t.
Variable check_quality : ExecutionResult -> list string -> Check.t.
Variable assess_confidence : ExecutionResult -> ExecutionContext -> Check.t.
Variable check_safety : ExecutionResult -> ExecutionContext -> Check.t.
Variable extract_issues : list Check.t -> list string.
Variable Gathered : Type.
Variable gather_context : ExecutionContext -> Py Gathered.
Variable create_plan : Task -> Gathered -> nat -> Py Plan.
Variable update_from_verification : VerificationResult -> ExecutionContext -> ExecutionContext.
Variable escalation_reason : VerificationResult -> string.

Local Abbreviation exec_plan := (execute_plan get_tool tool_execute execute_parallel aggregate_outputs).
Local Abbreviation verify_v := (verify check_policy_compliance check_completeness check_consistency
  check_quality assess_confidence check_safety extract_issues).
Local Abbreviation loop := (agent_loop get_tool tool_execute execute_parallel aggregate_outputs
  check_policy_compliance check_completeness check_consistency check_quality
  assess_confidence check_safety extract_issues gather_context create_plan
  update_from_verification escalation_reason).

(** X27: an iteration in which some verification check fails and is
    critical ends the loop at once: its verification is not complete and
    escalates, and the ESCALATED response is built with the keyword [reason],
    which the [AgentResponse] dataclass does not declare, so the loop raises
    [TypeError] at that iteration, without retrying. *)
Theorem agent_loop_critical_escalates : forall fuel it task ctx g plan er ctx1 c,
  gather_context ctx = Ok g ->
  create_plan task g it = Ok plan ->
  exec_plan plan ctx = Ok (er, ctx1) ->
  In c (checks (verify_v er plan ctx1)) -> Check.passed c = false -> Check.critical c = true ->
  complete (verify_v er plan ctx1) = false /\
  should_escalate (verify_v er plan ctx1) = true /\
  loop (S fuel) it task ctx =
    Raise (type_error "AgentResponse.__init__() got an unexpected keyword argument 'reason'").
Proof.
  intros fuel it task ctx g plan er ctx1 c Hg Hp He Hin Hpa Hcr.
  assert (Hc : complete (verify_v er plan ctx1) = false).
  { unfold verify in *. cbn [complete checks] in *.
    destruct (forallb Check.passed _) eqn:E; [| reflexivity].
    rewrite forallb_forall in E. rewrite (E c Hin) in Hpa. discriminate Hpa. }
  assert (Hs : should_escalate (verify_v er plan ctx1) = true).
  { unfold verify in *. cbn [should_escalate checks] in *.
    apply existsb_exists. exists c. split; [exact Hin |].
    unfold Check.failed. rewrite Hpa, Hcr. reflexivity. }
  split; [exact Hc | split; [exact Hs |]].
  cbn [agent_loop]. rewrite Hg. cbn [py_bind]. rewrite Hp. cbn [py_bind].
  rewrite He. cbn [py_bind fst snd]. rewrite Hc, Hs. reflexivity.
Qed.

End Orchestrator.

End AgentMore.

Module ExtraRuns.

(** X1 at a fresh manager and the unlisted category "imaging". *)
Lemma check_budget_unknown_category_witness :
  (forall v, ~ In ("imaging", v) (Budget.allocations Budget.init)) /\
  Budget.check_budget Budget.init "imaging" 500 =
    {| Budget.status := "OVER_ALLOCATION"; Budget.action := "TRIGGER_COMPACTION" |}.
Proof.
  assert (H : forall v, ~ In ("imaging", v) (Budget.allocations Budget.init)).
  { intros v Hin. cbn in Hin. repeat (destruct Hin as [Hin | Hin]; [inversion Hin |]). exact Hin. }
  split; [exact H |]. apply (BudgetMore.check_budget_unknown_category _ _ _ H). lia.
Defined.

(** X2 at a small request for "output" on a fresh manager. *)
Lemma check_budget_approved_sound_witness :
  Budget.status (Budget.check_budget Budget.init "output" 5000) = "APPROVED" /\
  5000 <= Budget.dict_get "output" (Budget.allocations Budget.init) 0 /\
  10 * (Budget.used Budget.init + 5000) <= 8 * Budget.total_budget Budget.init.
Proof.
  split; [reflexivity |]. apply BudgetMore.check_budget_approved_sound. reflexivity.
Defined.

(** X3 at an allocation, a check, an over-release and another allocation. *)
Lemma run_used_nonneg_witness :
  let ops := [Budget.Allocate "reasoning" 30000; Budget.CheckBudget "output" 10;
              Budget.Release "reasoning" 50000; Budget.Allocate "output" 100] in
  0 <= Budget.used Budget.init /\
  Forall (fun o => match o with Budget.Allocate _ a => 0 <= a | _ => True end) ops /\
  0 <= Budget.used (fst (Budget.run Budget.init ops)).
Proof.
  intros ops.
  assert (H0 : 0 <= Budget.used Budget.init) by (cbn; lia).
  assert (Hops : Forall (fun o => match o with Budget.Allocate _ a => 0 <= a | _ => True end) ops).
  { repeat (apply Forall_cons; [cbn; first [exact I | lia] |]). apply Forall_nil. }
  split; [exact H0 | split; [exact Hops |]].
  exact (BudgetMore.run_used_nonneg ops Budget.init H0 Hops).
Defined.

(** X4 at 1000 tokens of "tool_results" on a fresh manager. *)
Lemma allocate_release_roundtrip_witness :
  0 <= Budget.used Budget.init /\
  Budget.release (Budget.allocate Budget.init "tool_results" 1000) "tool_results" 1000 = Budget.init.
Proof.
  assert (H0 : 0 <= Budget.used Budget.init) by (cbn; lia).
  split; [exact H0 |].
  exact (proj1 (BudgetMore.allocate_release_roundtrip Budget.init "tool_results" "tool_results" 1000
    H0 ltac:(lia))).
Defined.

(** X8 at two requests for an explanation followed by an approval. *)
Lemma request_approval_explain_witness :
  Forall (fun u => Approval.ur_action u = "EXPLAIN")
    [DemoApproval.answer "EXPLAIN"; DemoApproval.answer "EXPLAIN"] /\
  fst (Approval.request_approval DemoApproval.generate_summary DemoApproval.proposal
         DemoApproval.requirements_tier4
         ([DemoApproval.answer "EXPLAIN"; DemoApproval.answer "EXPLAIN"] ++ [DemoApproval.answer "APPROVE"])) =
    Approval.Responded (Approval.mkApprovalResponse "APPROVED" None None "dr_a").
Proof.
  assert (H : Forall (fun u => Approval.ur_action u = "EXPLAIN")
    [DemoApproval.answer "EXPLAIN"; DemoApproval.answer "EXPLAIN"]) by (repeat constructor).
  split; [exact H |].
  rewrite (ApprovalFacts.request_approval_explain DemoApproval.generate_summary DemoApproval.proposal
    DemoApproval.requirements_tier4 _ [DemoApproval.answer "APPROVE"] H).
  reflexivity.
Defined.

(** X9 at the answer "ESCALATE", which the module does not know. *)
Lemma request_approval_unknown_action_witness :
  ~ In (Approval.ur_action (DemoApproval.answer "ESCALATE")) ["APPROVE"; "DENY"; "MODIFY"; "EXPLAIN"] /\
  fst (Approval.request_approval DemoApproval.generate_summary DemoApproval.proposal
         DemoApproval.requirements_tier4 [DemoApproval.answer "ESCALATE"; DemoApproval.answer "APPROVE"]) =
    Approval.ReturnedNone.
Proof.
  assert (H : ~ In (Approval.ur_action (DemoApproval.answer "ESCALATE")) ["APPROVE"; "DENY"; "MODIFY"; "EXPLAIN"]).
  { intros Hin. cbn in Hin. repeat (destruct Hin as [Hin | Hin]; [discriminate Hin |]). exact Hin. }
  split; [exact H |].
  rewrite (ApprovalFacts.request_approval_unknown_action DemoApproval.generate_summary DemoApproval.proposal
    DemoApproval.requirements_tier4 _ [DemoApproval.answer "APPROVE"] H).
  reflexivity.
Defined.

(** X10 at a tier-4 action, whose requirements forbid modification. *)
Lemma request_approval_modify_unchecked_witness :
  Approval.can_modify DemoApproval.requirements_tier4 = false /\
  fst (Approval.request_approval DemoApproval.generate_summary DemoApproval.proposal
         DemoApproval.requirements_tier4 [DemoApproval.answer "MODIFY"]) =
    Approval.Responded (Approval.mkApprovalResponse "MODIFY" None (Some "dose 5mg") "dr_a").
Proof.
  split; [reflexivity |].
  exact (proj2 (ApprovalFacts.request_approval_modify_unchecked DemoApproval.generate_summary
    DemoApproval.proposal DemoApproval.requirements_tier4 (DemoApproval.answer "MODIFY") [] eq_refl eq_refl)).
Defined.

(** X11 at the record tool registered in an empty registry. *)
Lemma register_then_get_witness :
  exists s', Registry.register_tool DemoRegistry.validate_spec DemoTools.spec_cacheable DemoRegistry.empty = (Ok tt, s') /\
  Registry.get_tool "fetch_record" s' = (Ok DemoTools.spec_cacheable, s').
Proof.
  eexists. split; [reflexivity |].
  exact (proj1 (RegistryFacts.register_then_get DemoRegistry.validate_spec DemoTools.spec_cacheable
    DemoRegistry.empty _ eq_refl)).
Defined.

(** X12 at a second registration of the record tool. *)
Lemma register_duplicate_rejected_witness :
  Registry.register_tool DemoRegistry.validate_spec DemoTools.spec_cacheable DemoRegistry.stored =
    (Raise (OtherException "ToolRegistryError" "Tool fetch_record already registered"), DemoRegistry.stored).
Proof.
  exact (RegistryFacts.register_duplicate_rejected DemoRegistry.validate_spec DemoTools.spec_cacheable
    DemoRegistry.stored DemoTools.spec_cacheable eq_refl eq_refl).
Defined.

(** X13 at the record tool fetched from the backend, which is then emptied. *)
Lemma get_tool_cache_shadows_backend_witness :
  exists s', Registry.get_tool "fetch_record" DemoRegistry.stored = (Ok DemoTools.spec_cacheable, s') /\
  Registry.get_tool "fetch_record" {| Registry.backend := []; Registry.cache := Registry.cache s' |} =
    (Ok DemoTools.spec_cacheable, {| Registry.backend := []; Registry.cache := Registry.cache s' |}).
Proof.
  eexists. split; [reflexivity |].
  exact (RegistryFacts.get_tool_cache_shadows_backend "fetch_record" DemoRegistry.stored _ _ eq_refl []).
Defined.

(** X16 at the record tool (time-to-live 300) on an empty cache at time 0,
    called again at time 100 and at time 300. *)
Lemma execute_caches_result_witness :
  let st1 := ToolExec.mkState [("fetch_record", ToolExec.mkCacheEntry DemoExec.record_result 300)]
       [ToolExec.CacheGet "fetch_record"; ToolExec.McpCall "mcp://records/fetch";
        ToolExec.CacheSet "fetch_record"] 0 in
  DemoExec.run_with DemoTools.spec_cacheable DemoTools.mcp_call_tool DemoTools.verify_result
    DemoExec.cold = (Ok DemoExec.record_result, st1) /\
  DemoExec.run_with DemoTools.spec_cacheable DemoTools.mcp_call_tool DemoTools.verify_result
    (ToolExec.mkState (ToolExec.result_cache st1) (ToolExec.events st1) 100) =
    (Ok DemoExec.record_result,
     ToolExec.mkState (ToolExec.result_cache st1)
       (ToolExec.events st1 ++ [ToolExec.CacheGet "fetch_record"]) 100) /\
  DemoExec.run_with DemoTools.spec_cacheable DemoTools.mcp_call_tool DemoTools.verify_result
    (ToolExec.mkState (ToolExec.result_cache st1) (ToolExec.events st1) 300) =
    (Ok DemoExec.record_result,
     ToolExec.mkState
       (("fetch_record", ToolExec.mkCacheEntry DemoExec.record_result 600) :: ToolExec.result_cache st1)
       (ToolExec.events st1 ++ [ToolExec.CacheGet "fetch_record";
          ToolExec.McpCall "mcp://records/fetch"; ToolExec.CacheSet "fetch_record"]) 300).
Proof.
  destruct (ToolExecMore.execute_caches_result string string (fun u => u)
    DemoTools.check_authorization DemoTools.get_consent DemoTools.validate_parameters
    DemoTools.generate_cache_key DemoTools.mcp_call_tool DemoTools.verify_result
    DemoTools.spec_cacheable DemoTools.params "clinical_agent" DemoExec.cold DemoTools.params
    "record 42" DemoExec.record_result 100 eq_refl eq_refl eq_refl eq_refl eq_refl eq_refl eq_refl)
    as [H1 [H2 _]].
  destruct (ToolExecMore.execute_caches_result string string (fun u => u)
    DemoTools.check_authorization DemoTools.get_consent DemoTools.validate_parameters
    DemoTools.generate_cache_key DemoTools.mcp_call_tool DemoTools.verify_result
    DemoTools.spec_cacheable DemoTools.params "clinical_agent" DemoExec.cold DemoTools.params
    "record 42" DemoExec.record_result 300 eq_refl eq_refl eq_refl eq_refl eq_refl eq_refl eq_refl)
    as [_ [_ H3]].
  split; [exact H1 | split].
  - exact (H2 ltac:(cbn; lia)).
  - exact (H3 ltac:(cbn; lia)).
Defined.

(** X17 at the same tool declared not cacheable. *)
Lemma execute_uncacheable_no_write_witness :
  ToolExec.cacheable DemoExec.spec_plain = false /\
  ToolExec.result_cache (snd (DemoExec.run_with DemoExec.spec_plain DemoTools.mcp_call_tool
    DemoTools.verify_result DemoExec.cold)) = [].
Proof.
  split; [reflexivity |].
  exact (proj1 (ToolExecMore.execute_uncacheable_no_write string string (fun u => u)
    DemoTools.check_authorization DemoTools.get_consent DemoTools.validate_parameters
    DemoTools.generate_cache_key DemoTools.mcp_call_tool DemoTools.verify_result
    DemoExec.spec_plain DemoTools.params "clinical_agent" DemoExec.cold eq_refl)).
Defined.

(** X18 at a tool server that refuses the connection. *)
Lemma execute_mcp_error_failed_witness :
  DemoExec.run_with DemoTools.spec_cacheable DemoExec.mcp_down DemoTools.verify_result DemoExec.cold =
    (Ok (ToolExec.mkToolResult "FAILED" None (Some "connection refused") "fetch_record"),
     ToolExec.mkState [] [ToolExec.CacheGet "fetch_record"; ToolExec.McpCall "mcp://records/fetch"] 0).
Proof.
  exact (ToolExecMore.execute_mcp_error_failed string string (fun u => u) DemoTools.check_authorization
    DemoTools.get_consent DemoTools.validate_parameters DemoTools.generate_cache_key
    DemoExec.mcp_down DemoTools.verify_result DemoTools.spec_cacheable DemoTools.params
    "clinical_agent" DemoExec.cold DemoTools.params "connection refused"
    eq_refl eq_refl eq_refl eq_refl eq_refl).
Defined.

(** X19 at an output that fails the completeness check. *)
Lemma execute_verification_error_escapes_witness :
  exists msg,
  DemoExec.run_with DemoTools.spec_cacheable DemoTools.mcp_call_tool
    (ToolVerifier.verify_result DemoExec.output_schema DemoExec.required_fields
       DemoExec.validate_schema DemoExec.check_completeness DemoExec.check_safety DemoExec.repr_checks)
    DemoExec.cold =
    (Raise (OtherException "ToolVerificationError" msg),
     ToolExec.mkState [] [ToolExec.CacheGet "fetch_record"; ToolExec.McpCall "mcp://records/fetch"] 0).
Proof.
  exact (ToolExecMore.execute_verification_error_escapes string string (fun u => u)
    DemoTools.check_authorization DemoTools.get_consent DemoTools.validate_parameters
    DemoTools.generate_cache_key DemoTools.mcp_call_tool DemoExec.output_schema
    DemoExec.required_fields DemoExec.validate_schema DemoExec.check_completeness
    DemoExec.check_safety DemoExec.repr_checks DemoTools.spec_cacheable DemoTools.params
    "clinical_agent" DemoExec.cold DemoTools.params "record 42"
    eq_refl eq_refl eq_refl eq_refl eq_refl eq_refl).
Defined.

(** X22 at an admitted request to a server whose tool answers "ok". *)
Lemma handle_request_success_checked_witness :
  MCP.handle_request unit DemoServer.verify_auth DemoServer.check_authorization
    DemoServer.validate_input DemoServer.rate_exceeded DemoServer.echo_execute
    DemoServer.validate_output (DemoServer.request []) tt [] =
  (Raise (MCP.no_attribute "MCPResponse" "success"),
   [MCP.AuditBegin 0; MCP.Executed; MCP.AuditComplete 0 "SUCCESS" "ok";
    MCP.AuditComplete 0 "FAILURE" "type object 'MCPResponse' has no attribute 'success'"]).
Proof.
  exact (MCPFacts.handle_request_success_checked unit DemoServer.verify_auth
    DemoServer.check_authorization DemoServer.validate_input DemoServer.rate_exceeded
    DemoServer.echo_execute DemoServer.validate_output (DemoServer.request []) tt [] "ok"
    eq_refl eq_refl eq_refl eq_refl eq_refl eq_refl).
Defined.

(** X23 at a fetch without a patient id, then with one and no data type. *)
Lemma ehr_fetch_parameters_witness :
  MCP.ehr_execute unit string DemoServer.ehr_get_patient (fun d => d) DemoServer.get_lab_results
    [("operation", "fetch_patient_data")] tt = Raise (OtherException "KeyError" "'patient_id'") /\
  MCP.ehr_execute unit string DemoServer.ehr_get_patient (fun d => d) DemoServer.get_lab_results
    [("operation", "fetch_patient_data"); ("patient_id", "p42")] tt = Ok "p42:summary".
Proof.
  split.
  - exact (proj1 (proj1 (MCPFacts.ehr_fetch_parameters unit string DemoServer.ehr_get_patient
      (fun d => d) DemoServer.get_lab_results [("operation", "fetch_patient_data")] tt eq_refl)
      eq_refl DemoServer.ehr_get_patient)).
  - exact (proj2 (MCPFacts.ehr_fetch_parameters unit string DemoServer.ehr_get_patient
      (fun d => d) DemoServer.get_lab_results
      [("operation", "fetch_patient_data"); ("patient_id", "p42")] tt eq_refl) "p42" eq_refl eq_refl).
Defined.

(** X24 at an admitted request for the unknown operation "delete_patient". *)
Lemma ehr_unknown_operation_audited_witness :
  MCP.handle_request unit DemoServer.verify_auth DemoServer.check_authorization
    DemoServer.validate_input DemoServer.rate_exceeded
    (MCP.ehr_execute unit string DemoServer.ehr_get_patient (fun d => d) DemoServer.get_lab_results)
    DemoServer.validate_output (DemoServer.request [("operation", "delete_patient")]) tt [] =
  (Raise (OtherException "MCPServerError" "Unknown operation: delete_patient"),
   [MCP.AuditBegin 0; MCP.Executed; MCP.AuditComplete 0 "FAILURE" "Unknown operation: delete_patient"]).
Proof.
  exact (MCPFacts.ehr_unknown_operation_audited unit string DemoServer.ehr_get_patient (fun d => d)
    DemoServer.get_lab_results DemoServer.verify_auth DemoServer.check_authorization
    DemoServer.validate_input DemoServer.rate_exceeded DemoServer.validate_output
    (DemoServer.request [("operation", "delete_patient")]) tt []
    eq_refl eq_refl eq_refl eq_refl ltac:(discriminate) ltac:(discriminate)).
Defined.

(** X25 at a plan whose middle step fails without being critical. *)
Lemma execute_plan_success_witness :
  exists results ctx',
  Agent.steps_continue Demo.get_tool Demo.tool_execute Demo.execute_parallel
    (Agent.steps DemoAgent.plan_tolerant) [] Demo.ctx0 results ctx' /\
  Agent.execute_plan Demo.get_tool Demo.tool_execute Demo.execute_parallel Demo.aggregate_outputs
    DemoAgent.plan_tolerant Demo.ctx0 =
    Ok ({| Agent.er_steps := results; Agent.er_status := "SUCCESS"; Agent.failure_reason := None;
           Agent.output := Some "aggregated" |}, ctx') /\
  map Agent.sr_status results = ["SUCCESS"; "FAILED"; "SUCCESS"].
Proof.
  do 2 eexists. split; [| split].
  - repeat (eapply Agent.sc_cons; [reflexivity | reflexivity |]). apply Agent.sc_nil.
  - eapply (proj1 (AgentMore.execute_plan_success _ Demo.get_tool Demo.tool_execute
      Demo.execute_parallel Demo.aggregate_outputs DemoAgent.plan_tolerant Demo.ctx0 _ _ _)).
    Unshelve. repeat (eapply Agent.sc_cons; [reflexivity | reflexivity |]). apply Agent.sc_nil.
  - reflexivity.
Defined.

(** X26 at the non-critical failing lookup step. *)
Lemma noncritical_tool_error_continues_witness :
  Agent.execute_steps Demo.get_tool Demo.tool_execute Demo.execute_parallel Demo.aggregate_outputs
    [DemoAgent.step_lookup_fail; Demo.step_notify] [] Demo.ctx0 =
  Agent.execute_steps Demo.get_tool Demo.tool_execute Demo.execute_parallel Demo.aggregate_outputs
    [Demo.step_notify]
    [{| Agent.sr_step := DemoAgent.step_lookup_fail; Agent.sr_status := "FAILED"; Agent.sr_output := None;
        Agent.sr_error := Some "ticket system unavailable"; Agent.failure := true; Agent.duration := None |}]
    (Agent.add_step_result Demo.ctx0
      {| Agent.sr_step := DemoAgent.step_lookup_fail; Agent.sr_status := "FAILED"; Agent.sr_output := None;
         Agent.sr_error := Some "ticket system unavailable"; Agent.failure := true; Agent.duration := None |}).
Proof.
  exact (AgentMore.noncritical_tool_error_continues _ Demo.get_tool Demo.tool_execute
    Demo.execute_parallel Demo.aggregate_outputs DemoAgent.step_lookup_fail [Demo.step_notify] []
    Demo.ctx0 tt "ticket system unavailable" eq_refl eq_refl eq_refl eq_refl).
Defined.

(** X27 at a successful plan whose output the critical safety check rejects. *)
Lemma agent_loop_critical_escalates_witness :
  Agent.agent_loop Demo.get_tool Demo.tool_execute Demo.execute_parallel Demo.aggregate_outputs
    Demo.check_policy_compliance Demo.check_completeness Demo.check_consistency Demo.check_quality
    Demo.assess_confidence DemoAgent.check_safety_phi Demo.extract_issues Demo.gather_context
    (Demo.create_plan_with Demo.plan_ok) Demo.update_from_verification Demo.escalation_reason
    (S 9) 0 Demo.task Demo.ctx0 =
  Raise (Agent.type_error "AgentResponse.__init__() got an unexpected keyword argument 'reason'").
Proof.
  eapply (AgentMore.agent_loop_critical_escalates _ Demo.get_tool Demo.tool_execute
    Demo.execute_parallel Demo.aggregate_outputs Demo.check_policy_compliance Demo.check_completeness
    Demo.check_consistency Demo.check_quality Demo.assess_confidence DemoAgent.check_safety_phi
    Demo.extract_issues _ Demo.gather_context (Demo.create_plan_with Demo.plan_ok)
    Demo.update_from_verification Demo.escalation_reason 9 0 Demo.task Demo.ctx0 tt Demo.plan_ok
    _ _ (Agent.Check.mk false true "PHI in output" 0) eq_refl eq_refl eq_refl).
  - cbn. right; right; right; right; right; left. reflexivity.
  - reflexivity.
  - reflexivity.
  Unshelve. all: reflexivity.
Defined.

(** The requirements of a LOW-impact irreversible action on PHI: it is
    classified tier 3, so it may be modified and keeps the emergency
    override. *)
Example approval_requirements_phi :
  let a := Tier.mkRawAction "LOW" "NONE" "PHI" in
  let req := Approval.get_approval_requirements DemoApproval.get_timeout (fun _ => "physician")
               a (Tier.classify_raw a) in
  Approval.can_modify req = true /\ Approval.emergency_override req = true /\
  Approval.req_timeout req = 3600.
Proof. repeat split. Qed.

End ExtraRuns.
